(** * lmwrapper.sqlcache: a SQLite-backed cache of language-model predictions

    A shallow embedding of [lmwrapper/sqlcache.py]: the fingerprint functions
    that derive the text key and the sample key of a prompt, the three SQLite
    tables, the connection with its transaction state, and the add / get /
    delete protocol of [SqlBackedCache]; followed by the properties the
    specification states about them. *)

From Stdlib Require Import String Ascii ZArith NArith Lia Bool Arith List.
From Stdlib Require Import Strings.Byte DecimalString.
Import ListNotations.

Open Scope Z_scope.

(* ===================================================================== *)
(** ** Python strings, bytes and slices *)
(* ===================================================================== *)

(** A Python [str] is a sequence of characters.  The cache only measures,
    slices, reverses and concatenates strings, and hashes their encoding. *)
Definition pystr := list ascii.

Definition lit (s : string) : pystr := list_ascii_of_string s.

Definition pystr_eqb (a b : pystr) : bool :=
  if list_eq_dec ascii_dec a b then true else false.

Definition bytes_eqb (a b : list byte) : bool :=
  if list_eq_dec Byte.byte_eq_dec a b then true else false.

(** [len(s)] as a Python integer. *)
Definition len {A} (s : list A) : Z := Z.of_nat (length s).

(** The position a slice bound [i] denotes in a sequence of [n] items:
    negative bounds count from the end, and every bound is clamped. *)
Definition slice_bound (n : nat) (i : Z) : nat :=
  if i <? 0 then Z.to_nat (Z.max 0 (Z.of_nat n + i))
  else Nat.min n (Z.to_nat i).

(** [s[:j]] *)
Definition slice_to {A} (s : list A) (j : Z) : list A :=
  firstn (slice_bound (length s) j) s.

(** [s[i:]] *)
Definition slice_from {A} (s : list A) (i : Z) : list A :=
  skipn (slice_bound (length s) i) s.

(** [c * n] for a one-character string [c]. *)
Definition str_mul (c : ascii) (n : Z) : pystr := repeat c (Z.to_nat n).

Definition byte_of_N (n : N) : byte :=
  match Byte.of_N (n mod 256) with
  | Some b => b
  | None => x00
  end.

(** [str.encode()]: UTF-8.  A character below 128 is one byte, the others
    of the range take two. *)
Definition utf8_char (c : ascii) : list byte :=
  let n := N_of_ascii c in
  if (n <? 128)%N then [byte_of_N n]
  else [byte_of_N (N.lor 192 (N.shiftr n 6)); byte_of_N (N.lor 128 (N.land n 63))].

Definition encode (s : pystr) : list byte := flat_map utf8_char s.

(* ===================================================================== *)
(** ** base64.b64encode *)
(* ===================================================================== *)

Module Base64.

Definition alphabet : pystr :=
  lit "ABCDEFGHIJKLMNOPQRSTUVWXYZabcdefghijklmnopqrstuvwxyz0123456789+/".

Definition digit (n : N) : ascii :=
  nth (N.to_nat (N.land n 63)) alphabet "="%char.

Definition group3 (a b c : byte) : N :=
  (Byte.to_N a * 65536 + Byte.to_N b * 256 + Byte.to_N c)%N.

Fixpoint b64encode (bs : list byte) : pystr :=
  match bs with
  | [] => []
  | [a] =>
      let n := group3 a x00 x00 in
      [digit (N.shiftr n 18); digit (N.shiftr n 12); "="%char; "="%char]
  | [a; b] =>
      let n := group3 a b x00 in
      [digit (N.shiftr n 18); digit (N.shiftr n 12); digit (N.shiftr n 6);
       "="%char]
  | a :: b :: c :: rest =>
      let n := group3 a b c in
      digit (N.shiftr n 18) :: digit (N.shiftr n 12) :: digit (N.shiftr n 6)
        :: digit n :: b64encode rest
  end.

End Base64.

(* ===================================================================== *)
(** ** The request and the prediction *)
(* ===================================================================== *)

(** A Python [float], carried as its IEEE-754 binary64 bit pattern: the cache
    forwards floats to the hash input and to the store and never computes
    with them. *)
Definition pyfloat := N.

(** The fields of [LmPrompt] that the cache reads, and three that it does
    not read ([logprobs], [num_completions], [cache]). *)
Record LmPrompt := {
  get_text_as_string_default_form : pystr;
  max_tokens : Z;
  stop : option (list pystr);
  logprobs : Z;
  temperature : pyfloat;
  top_p : pyfloat;
  presence_penalty : pyfloat;
  frequency_penalty : pyfloat;
  num_completions : Z;
  cache : option bool;
  echo : bool;
  add_bos_token : option bool;
  add_special_tokens : bool;
  model_internals_request : option pystr
}.

(** The dictionary built by [prompt_to_only_sample_class_dict]; its keys are
    fixed, so it is a record, and [params['k']] is a projection. *)
Record sample_class_dict := {
  d_model_key : pystr;
  d_max_tokens : Z;
  d_temperature : pyfloat;
  d_top_p : pyfloat;
  d_presence_penalty : pyfloat;
  d_frequency_penalty : pyfloat;
  d_add_bos_token : pystr;
  d_echo : bool;
  d_add_special_tokens : bool;
  d_has_internals_request : bool;
  d_stop : pystr
}.

(** What the cache takes from outside this module: the xxhash library, the
    [str] of a dictionary and of a list, and the type of the metadata a
    prediction carries. *)
Class Externals := {
  (** [xxhash.xxh64(b).intdigest()] *)
  xxh64_intdigest : list byte -> N;
  (** [str(d)] for the dictionary of sample parameters *)
  str_of_dict : sample_class_dict -> pystr;
  (** [str(l)] for a list of strings *)
  str_of_list : list pystr -> pystr;
  (** tokens, log-probabilities and the like *)
  Metad : Type
}.

(* ===================================================================== *)
(** ** Fingerprint engine *)
(* ===================================================================== *)

Definition _text_hash_len : Z := 32.
Definition _text_and_sample_hash_len : Z := 43.

(** [str(x)] for an optional boolean and for an optional list. *)
Definition str_of_opt_bool (b : option bool) : pystr :=
  match b with
  | None => lit "None"
  | Some true => lit "True"
  | Some false => lit "False"
  end.

Definition is_not_None {A} (x : option A) : bool :=
  match x with Some _ => true | None => false end.

Section Fingerprint.
Context `{Externals}.

(** [hasher.digest()]: the 64-bit value, most significant byte first. *)
Definition xxh64_digest (data : list byte) : list byte :=
  let h := (xxh64_intdigest data mod 2 ^ 64)%N in
  map (fun i => byte_of_N (N.shiftr h (8 * i))) [7; 6; 5; 4; 3; 2; 1; 0]%N.

(** [base64.b64encode(xxh64(s.encode()).digest()).decode()] *)
Definition b64_xxh64 (s : pystr) : pystr :=
  Base64.b64encode (xxh64_digest (encode s)).

Definition str_of_stop (s : option (list pystr)) : pystr :=
  match s with
  | None => lit "None"
  | Some l => str_of_list l
  end.

Definition prompt_to_text_hash (prompt : LmPrompt) : pystr :=
  let text := get_text_as_string_default_form prompt in
  let text_hash := b64_xxh64 text in
  let remaining_chars := _text_hash_len - len text_hash in
  let start_chars := slice_to text (Z.min (remaining_chars / 3) (len text)) in
  let end_chars :=
    slice_from text (- Z.min (remaining_chars - len start_chars) (len text)) in
  let text_hash := start_chars ++ rev end_chars ++ text_hash in
  if len text_hash <? _text_hash_len
  then text_hash ++ str_mul "_" (_text_hash_len - len text_hash)
  else text_hash.

Definition prompt_to_only_sample_class_dict
    (prompt : LmPrompt) (model_key : pystr) : sample_class_dict :=
  {| d_model_key := model_key;
     d_max_tokens := max_tokens prompt;
     d_temperature := temperature prompt;
     d_top_p := top_p prompt;
     d_presence_penalty := presence_penalty prompt;
     d_frequency_penalty := frequency_penalty prompt;
     d_add_bos_token := str_of_opt_bool (add_bos_token prompt);
     d_echo := echo prompt;
     d_add_special_tokens := add_special_tokens prompt;
     d_has_internals_request := is_not_None (model_internals_request prompt);
     d_stop := str_of_stop (stop prompt) |}.

Definition prompt_to_sample_params_hash
    (prompt : LmPrompt) (model_key : pystr) : pystr :=
  let _target_len := _text_and_sample_hash_len - _text_hash_len in
  let hash :=
    b64_xxh64 (str_of_dict (prompt_to_only_sample_class_dict prompt model_key)) in
  if len hash <? _target_len
  then hash ++ str_mul "_" (_target_len - len hash)
  else if len hash >? _target_len
  then slice_to hash _target_len
  else hash.

Definition prompt_to_sample_hash_text
    (prompt : LmPrompt) (model_key : pystr) : pystr :=
  prompt_to_text_hash prompt ++ prompt_to_sample_params_hash prompt model_key.

End Fingerprint.

(* ===================================================================== *)
(** ** A reference XXH64 (seed 0)

    The properties below hold for whatever function is supplied as
    [xxh64_intdigest]; the algorithm of the xxhash library is written out
    here so that the keys can be computed on concrete prompts. *)
(* ===================================================================== *)

Module XXH64.
Local Open Scope N_scope.

Definition P1 : N := 11400714785074694791.
Definition P2 : N := 14029467366897019727.
Definition P3 : N := 1609587929392839161.
Definition P4 : N := 9650029242287828579.
Definition P5 : N := 2870177450012600261.

Definition w64 (x : N) : N := x mod 2 ^ 64.
Definition rotl (x r : N) : N :=
  w64 (N.lor (N.shiftl x r) (N.shiftr x (64 - r))).

Definition round (acc input : N) : N :=
  w64 (rotl (w64 (acc + input * P2)) 31 * P1).

Definition mergeRound (acc val : N) : N :=
  w64 (N.lxor acc (round 0 val) * P1 + P4).

(** little-endian read of the first [n] bytes *)
Fixpoint read_le (n : nat) (bs : list byte) : N :=
  match n, bs with
  | S k, b :: rest => Byte.to_N b + 256 * read_le k rest
  | _, _ => 0
  end.

Fixpoint stripes (fuel : nat) (v : N * N * N * N) (bs : list byte)
    : N * N * N * N * list byte :=
  match fuel with
  | O => (v, bs)
  | S k =>
      if (List.length bs <? 32)%nat then (v, bs)
      else
        let '(v1, v2, v3, v4) := v in
        stripes k
          (round v1 (read_le 8 bs),
           round v2 (read_le 8 (skipn 8 bs)),
           round v3 (read_le 8 (skipn 16 bs)),
           round v4 (read_le 8 (skipn 24 bs)))
          (skipn 32 bs)
  end.

Fixpoint tail (fuel : nat) (h : N) (bs : list byte) : N :=
  match fuel with
  | O => h
  | S k =>
      if (8 <=? List.length bs)%nat then
        tail k (w64 (rotl (N.lxor h (round 0 (read_le 8 bs))) 27 * P1 + P4))
             (skipn 8 bs)
      else if (4 <=? List.length bs)%nat then
        tail k (w64 (rotl (N.lxor h (w64 (read_le 4 bs * P1))) 23 * P2 + P3))
             (skipn 4 bs)
      else
        match bs with
        | [] => h
        | b :: rest =>
            tail k (w64 (rotl (N.lxor h (w64 (Byte.to_N b * P5))) 11 * P1)) rest
        end
  end.

Definition avalanche (h : N) : N :=
  let h := N.lxor h (N.shiftr h 33) in
  let h := w64 (h * P2) in
  let h := N.lxor h (N.shiftr h 29) in
  let h := w64 (h * P3) in
  N.lxor h (N.shiftr h 32).

Definition intdigest (data : list byte) : N :=
  let n := List.length data in
  let '(h, rest) :=
    if (32 <=? n)%nat then
      let '(v1, v2, v3, v4, rest) :=
        stripes n (w64 (P1 + P2), P2, 0, w64 (2 ^ 64 - P1)) data in
      let h := w64 (rotl v1 1 + rotl v2 7 + rotl v3 12 + rotl v4 18) in
      (mergeRound (mergeRound (mergeRound (mergeRound h v1) v2) v3) v4, rest)
    else (P5, data) in
  avalanche (tail n (w64 (h + N.of_nat n)) rest).

End XXH64.

(* ===================================================================== *)
(** ** SQLite: values, tables and the statements the cache issues *)
(* ===================================================================== *)

Inductive value :=
| VNull
| VInt (z : Z)
| VReal (f : pyfloat)
| VText (s : pystr)
| VBlob (b : list byte).

(** A row is the tuple [fetchone] returns; a table lists its rows in rowid
    order, which is the order of a scan without [ORDER BY]. *)
Definition row := list value.
Definition table := list row.

(** The file [lm_cache.db]: each table is there or not. *)
Record database := {
  CacheLmPromptText : option table;
  CacheLmPromptSampleParams : option table;
  CacheLmPrediction : option table
}.

Definition empty_database : database :=
  {| CacheLmPromptText := None;
     CacheLmPromptSampleParams := None;
     CacheLmPrediction := None |}.

Inductive exn :=
| OperationalError    (* no such table, disk I/O error, database is locked *)
| ProgrammingError    (* incorrect number of bindings supplied *)
| AssertionError.

Inductive result (A : Type) :=
| Ok (a : A)
| Raise (e : exn).
Arguments Ok {A} a.
Arguments Raise {A} e.

(** [column = ?].  The cache compares TEXT keys only; NULL equals nothing. *)
Definition sql_eq (a b : value) : bool :=
  match a, b with
  | VText x, VText y => pystr_eqb x y
  | VInt x, VInt y => Z.eqb x y
  | VBlob x, VBlob y => bytes_eqb x y
  | _, _ => false
  end.

Definition col (i : nat) (r : row) : value := nth i r VNull.

Definition where_eq (i : nat) (v : value) (r : row) : bool := sql_eq (col i r) v.

Definition bool_value (b : bool) : value := VInt (if b then 1 else 0).

Inductive sql :=
| BEGIN
| CREATE_TABLE_IF_NOT_EXISTS_CacheLmPromptText
| CREATE_TABLE_IF_NOT_EXISTS_CacheLmPromptSampleParams
| CREATE_TABLE_IF_NOT_EXISTS_CacheLmPrediction
| INSERT_OR_IGNORE_INTO_CacheLmPromptText
| INSERT_OR_IGNORE_INTO_CacheLmPromptSampleParams
| INSERT_INTO_CacheLmPrediction
| SELECT_FROM_CacheLmPrediction_WHERE_sample_params
| DELETE_FROM_CacheLmPrediction_WHERE_sample_params
| DELETE_FROM_CacheLmPromptSampleParams_WHERE_sample_hash
| SELECT_COUNT_FROM_CacheLmPromptSampleParams_WHERE_text_hash
| DELETE_FROM_CacheLmPromptText_WHERE_text_hash.

(** The number of [?] in the statement. *)
Definition placeholders (q : sql) : nat :=
  match q with
  | BEGIN
  | CREATE_TABLE_IF_NOT_EXISTS_CacheLmPromptText
  | CREATE_TABLE_IF_NOT_EXISTS_CacheLmPromptSampleParams
  | CREATE_TABLE_IF_NOT_EXISTS_CacheLmPrediction => 0
  | INSERT_OR_IGNORE_INTO_CacheLmPromptText => 2
  | INSERT_OR_IGNORE_INTO_CacheLmPromptSampleParams => 13
  | INSERT_INTO_CacheLmPrediction => 5
  | _ => 1
  end%nat.

(** INSERT, DELETE: the statements before which the sqlite3 module opens a
    transaction when none is open. *)
Definition is_dml (q : sql) : bool :=
  match q with
  | INSERT_OR_IGNORE_INTO_CacheLmPromptText
  | INSERT_OR_IGNORE_INTO_CacheLmPromptSampleParams
  | INSERT_INTO_CacheLmPrediction
  | DELETE_FROM_CacheLmPrediction_WHERE_sample_params
  | DELETE_FROM_CacheLmPromptSampleParams_WHERE_sample_hash
  | DELETE_FROM_CacheLmPromptText_WHERE_text_hash => true
  | _ => false
  end.

(** What a statement leaves in the cursor: [rowcount] and the result rows. *)
Record outcome := { new_table : option table; changed : Z; rows : list row }.

Definition create_if_not_exists (t : option table) : result outcome :=
  Ok {| new_table := Some (match t with Some rs => rs | None => [] end);
        changed := -1; rows := [] |}.

(** [INSERT OR IGNORE]: a row whose primary key (column [key]) is already
    there is dropped. *)
Definition insert_or_ignore (key : nat) (r : row) (t : option table)
    : result outcome :=
  match t with
  | None => Raise OperationalError
  | Some rs =>
      if existsb (where_eq key (col key r)) rs
      then Ok {| new_table := Some rs; changed := 0; rows := [] |}
      else Ok {| new_table := Some (rs ++ [r]); changed := 1; rows := [] |}
  end.

Definition insert (r : row) (t : option table) : result outcome :=
  match t with
  | None => Raise OperationalError
  | Some rs => Ok {| new_table := Some (rs ++ [r]); changed := 1; rows := [] |}
  end.

Definition select_where (i : nat) (v : value) (t : option table)
    : result outcome :=
  match t with
  | None => Raise OperationalError
  | Some rs =>
      Ok {| new_table := Some rs; changed := -1; rows := filter (where_eq i v) rs |}
  end.

Definition select_count_where (i : nat) (v : value) (t : option table)
    : result outcome :=
  match t with
  | None => Raise OperationalError
  | Some rs =>
      Ok {| new_table := Some rs; changed := -1;
            rows := [[VInt (len (filter (where_eq i v) rs))]] |}
  end.

Definition delete_where (i : nat) (v : value) (t : option table)
    : result outcome :=
  match t with
  | None => Raise OperationalError
  | Some rs =>
      Ok {| new_table := Some (filter (fun r => negb (where_eq i v r)) rs);
            changed := len (filter (where_eq i v) rs); rows := [] |}
  end.

Definition on_PromptText (db : database) (f : option table -> result outcome)
    : result (database * Z * list row) :=
  match f (CacheLmPromptText db) with
  | Raise e => Raise e
  | Ok o =>
      Ok ({| CacheLmPromptText := new_table o;
             CacheLmPromptSampleParams := CacheLmPromptSampleParams db;
             CacheLmPrediction := CacheLmPrediction db |}, changed o, rows o)
  end.

Definition on_SampleParams (db : database) (f : option table -> result outcome)
    : result (database * Z * list row) :=
  match f (CacheLmPromptSampleParams db) with
  | Raise e => Raise e
  | Ok o =>
      Ok ({| CacheLmPromptText := CacheLmPromptText db;
             CacheLmPromptSampleParams := new_table o;
             CacheLmPrediction := CacheLmPrediction db |}, changed o, rows o)
  end.

Definition on_Prediction (db : database) (f : option table -> result outcome)
    : result (database * Z * list row) :=
  match f (CacheLmPrediction db) with
  | Raise e => Raise e
  | Ok o =>
      Ok ({| CacheLmPromptText := CacheLmPromptText db;
             CacheLmPromptSampleParams := CacheLmPromptSampleParams db;
             CacheLmPrediction := new_table o |}, changed o, rows o)
  end.

(** One statement on the database: the statement is compiled first (a
    missing table is an [OperationalError]), then its parameters are bound
    (a wrong count is a [ProgrammingError]), then it runs. *)
Definition run_sql (q : sql) (args : list value) (db : database)
    : result (database * Z * list row) :=
  let bound (k : option table -> result outcome) (t : option table) :=
    match t with
    | None => Raise OperationalError
    | Some _ =>
        if (List.length args =? placeholders q)%nat then k t
        else Raise ProgrammingError
    end in
  match q with
  | BEGIN => Ok (db, -1, [])
  | CREATE_TABLE_IF_NOT_EXISTS_CacheLmPromptText =>
      on_PromptText db create_if_not_exists
  | CREATE_TABLE_IF_NOT_EXISTS_CacheLmPromptSampleParams =>
      on_SampleParams db create_if_not_exists
  | CREATE_TABLE_IF_NOT_EXISTS_CacheLmPrediction =>
      on_Prediction db create_if_not_exists
  | INSERT_OR_IGNORE_INTO_CacheLmPromptText =>
      on_PromptText db (bound (insert_or_ignore 0 args))
  | INSERT_OR_IGNORE_INTO_CacheLmPromptSampleParams =>
      on_SampleParams db (bound (insert_or_ignore 1 args))
  | INSERT_INTO_CacheLmPrediction =>
      on_Prediction db (bound (insert args))
  | SELECT_FROM_CacheLmPrediction_WHERE_sample_params =>
      on_Prediction db (bound (select_where 0 (col 0 args)))
  | DELETE_FROM_CacheLmPrediction_WHERE_sample_params =>
      on_Prediction db (bound (delete_where 0 (col 0 args)))
  | DELETE_FROM_CacheLmPromptSampleParams_WHERE_sample_hash =>
      on_SampleParams db (bound (delete_where 1 (col 0 args)))
  | SELECT_COUNT_FROM_CacheLmPromptSampleParams_WHERE_text_hash =>
      on_SampleParams db (bound (select_count_where 0 (col 0 args)))
  | DELETE_FROM_CacheLmPromptText_WHERE_text_hash =>
      on_PromptText db (bound (delete_where 0 (col 0 args)))
  end.

(* ===================================================================== *)
(** ** Exceptions and state *)
(* ===================================================================== *)

(** A computation over a state [S] that returns or raises. *)
Definition M (S A : Type) : Type := S -> result A * S.

Definition ret {S A} (a : A) : M S A := fun s => (Ok a, s).

Definition raise {S A} (e : exn) : M S A := fun s => (Raise e, s).

Definition bind {S A B} (m : M S A) (k : A -> M S B) : M S B :=
  fun s =>
    match m s with
    | (Ok a, s') => k a s'
    | (Raise e, s') => (Raise e, s')
    end.

Declare Scope py_scope.
Delimit Scope py_scope with py.
Notation "x <- m ;; k" := (bind m (fun x => k))
  (at level 61, m at next level, right associativity) : py_scope.
Notation "m ;; k" := (bind m (fun _ => k))
  (at level 61, right associativity) : py_scope.
Open Scope py_scope.

(* ===================================================================== *)
(** ** The sqlite3 connection *)
(* ===================================================================== *)

(** The storage under the cache: the file, [None] while [cache_path_fn()]
    does not exist, and the environment's pending failure: [Some k] when the
    statement after the next [k] ones meets a storage failure (disk full,
    file locked beyond the timeout), [None] when none does. *)
Record disk := {
  cache_file : option database;
  io_fault : option nat
}.

(** A connection with its cursor.  [durable] is what the file holds,
    [current] what the connection sees, uncommitted writes included. *)
Record connection := {
  durable : database;
  current : database;
  in_transaction : bool;
  rowcount : Z;
  unread : list row;
  failing : option nat
}.

(** [sqlite3.connect(cache_path_fn())]: a missing file is created empty. *)
Definition connect (d : disk) : connection :=
  let db := match cache_file d with Some db => db | None => empty_database end in
  {| durable := db; current := db; in_transaction := false;
     rowcount := -1; unread := []; failing := io_fault d |}.

Definition commit : M connection unit :=
  fun c =>
    (Ok tt,
     {| durable := current c; current := current c; in_transaction := false;
        rowcount := rowcount c; unread := unread c; failing := failing c |}).

Definition rollback : M connection unit :=
  fun c =>
    (Ok tt,
     {| durable := durable c; current := durable c; in_transaction := false;
        rowcount := rowcount c; unread := unread c; failing := failing c |}).

(** [cursor.execute(q, args)].  [BEGIN] opens a transaction; an INSERT or
    DELETE opens one when none is open; any other statement outside a
    transaction takes effect at once. *)
Definition execute (q : sql) (args : list value) : M connection unit :=
  fun c =>
    match failing c with
    | Some O =>
        (Raise OperationalError,
         {| durable := durable c; current := current c;
            in_transaction := in_transaction c; rowcount := rowcount c;
            unread := unread c; failing := None |})
    | _ =>
        let left := option_map Nat.pred (failing c) in
        match q, in_transaction c with
        | BEGIN, true =>
            (Raise OperationalError,
             {| durable := durable c; current := current c;
                in_transaction := true; rowcount := rowcount c;
                unread := unread c; failing := left |})
        | _, _ =>
            match run_sql q args (current c) with
            | Raise e =>
                (Raise e,
                 {| durable := durable c; current := current c;
                    in_transaction := in_transaction c; rowcount := rowcount c;
                    unread := unread c; failing := left |})
            | Ok (db, n, rs) =>
                let txn :=
                  match q with
                  | BEGIN => true
                  | _ => in_transaction c || is_dml q
                  end in
                (Ok tt,
                 {| durable := if txn then durable c else db;
                    current := db; in_transaction := txn;
                    rowcount := n; unread := rs; failing := left |})
            end
        end
    end.

(** [cursor.fetchone()] *)
Definition fetchone : M connection (option row) :=
  fun c =>
    match unread c with
    | [] => (Ok None, c)
    | r :: rs =>
        (Ok (Some r),
         {| durable := durable c; current := current c;
            in_transaction := in_transaction c; rowcount := rowcount c;
            unread := rs; failing := failing c |})
    end.

Definition get_rowcount : M connection Z := fun c => (Ok (rowcount c), c).

(** [with sqlite3.connect(cache_path_fn()) as conn: body]: the connection
    commits when the body returns and rolls back when it raises. *)
Definition with_connection {A} (body : M connection A) : M disk A :=
  fun d =>
    let (r, c) := body (connect d) in
    let c' :=
      match r with
      | Ok _ => snd (commit c)
      | Raise _ => snd (rollback c)
      end in
    (r, {| cache_file := Some (durable c'); io_fault := failing c' |}).

(* ===================================================================== *)
(** ** execute_query and create_tables *)
(* ===================================================================== *)

(** The shapes [execute_query] accepts for [query]: a string, a pair of a
    string and its parameters, or a list of such. *)
Inductive statement :=
| Str (q : sql)
| Tuple (q : sql) (args : list value).

Inductive query :=
| QStr (q : sql)
| QTuple (q : sql) (args : list value)
| QList (qs : list statement).

Inductive query_result :=
| Cursor
| Fetched (r : option row).

Definition execute_statement (s : statement) : M connection unit :=
  match s with
  | Str q => execute q []
  | Tuple q args => execute q args
  end.

Fixpoint execute_all (qs : list statement) : M connection unit :=
  match qs with
  | [] => ret tt
  | s :: rest => execute_statement s ;; execute_all rest
  end.

Definition execute_query (q : query) (fetch_one : bool) : M disk query_result :=
  with_connection (
    match q with
    | QStr s => execute s []
    | QTuple s args => execute s args
    | QList qs => execute_all qs
    end ;;
    commit ;;
    if fetch_one then (r <- fetchone ;; ret (Fetched r)) else ret Cursor).

(** The cache directory is taken to exist or to be creatable. *)
Definition create_tables : M disk unit :=
  fun d =>
    match cache_file d with
    | Some _ => (Ok tt, d)
    | None =>
        (execute_query
           (QList [Str BEGIN;
                   Str CREATE_TABLE_IF_NOT_EXISTS_CacheLmPromptText;
                   Str CREATE_TABLE_IF_NOT_EXISTS_CacheLmPromptSampleParams;
                   Str CREATE_TABLE_IF_NOT_EXISTS_CacheLmPrediction])
           false ;;
         ret tt) d
    end.

(* ===================================================================== *)
(** ** The cache store and its facade *)
(* ===================================================================== *)

Section Cache.
Context `{Externals}.

(** What the cache reads of an [LmPrediction]: its fields, the name of its
    class and the bytes its serializer gives. *)
Record LmPrediction := {
  completion_text : pystr;
  prompt : LmPrompt;
  metad : Metad;
  class_name : pystr;
  serialize_metad_for_cache : list byte
}.

(** A prediction class, with its [parse_from_cache(completion_text, prompt,
    metad_bytes)]; the first and third arguments arrive as the stored
    columns. *)
Record prediction_class := {
  parse_from_cache : value -> LmPrompt -> value -> LmPrediction
}.

Record LmPredictor := {
  get_model_cache_key : pystr;
  find_prediction_class : LmPrompt -> prediction_class
}.

(** The thirteen parameters bound to the INSERT into
    CacheLmPromptSampleParams. *)
Definition sample_params_row
    (text_hash sample_hash : pystr) (params : sample_class_dict) : row :=
  [VText text_hash; VText sample_hash; VText (d_model_key params);
   VInt (d_max_tokens params); VReal (d_temperature params);
   VReal (d_top_p params); VReal (d_presence_penalty params);
   VReal (d_frequency_penalty params); VText (d_add_bos_token params);
   bool_value (d_echo params); bool_value (d_add_special_tokens params);
   bool_value (d_has_internals_request params); VText (d_stop params)].

(** The parameters [(text_hash, text)] land in [fetchone]; the statement
    goes to [cursor.execute] alone. *)
Definition create_from_prompt_text (prompt : LmPrompt) : M disk pystr :=
  let text_hash := prompt_to_text_hash prompt in
  let text := get_text_as_string_default_form prompt in
  let fetch_one := negb (Nat.eqb (List.length [VText text_hash; VText text]) 0) in
  execute_query (QStr INSERT_OR_IGNORE_INTO_CacheLmPromptText) fetch_one ;;
  ret text_hash.

Definition create_from_prompt_sample_params
    (prompt : LmPrompt) (model_key : pystr) : M disk pystr :=
  text_hash <- create_from_prompt_text prompt ;;
  let sample_hash := prompt_to_sample_hash_text prompt model_key in
  let params := prompt_to_only_sample_class_dict prompt model_key in
  execute_query
    (QTuple INSERT_OR_IGNORE_INTO_CacheLmPromptSampleParams
       (sample_params_row text_hash sample_hash params))
    false ;;
  ret sample_hash.

(** [now] is [datetime.datetime.now().isoformat()]. *)
Definition add_prediction_to_cache
    (now : pystr) (prediction : LmPrediction) (model_key : pystr)
    : M disk unit :=
  create_tables ;;
  let sample_hash := prompt_to_sample_hash_text (prompt prediction) model_key in
  let params := prompt_to_only_sample_class_dict (prompt prediction) model_key in
  let text_hash := prompt_to_text_hash (prompt prediction) in
  let text := get_text_as_string_default_form (prompt prediction) in
  execute_query
    (QList
       [Str BEGIN;
        Tuple INSERT_OR_IGNORE_INTO_CacheLmPromptText [VText text_hash; VText text];
        Tuple INSERT_OR_IGNORE_INTO_CacheLmPromptSampleParams
          (sample_params_row text_hash sample_hash params);
        Tuple INSERT_INTO_CacheLmPrediction
          [VText sample_hash; VText (class_name prediction);
           VText (completion_text prediction);
           VBlob (serialize_metad_for_cache prediction); VText now]])
    false ;;
  ret tt.

Definition get_from_cache (prompt : LmPrompt) (lm : LmPredictor)
    : M disk (option LmPrediction) :=
  create_tables ;;
  let sample_hash := prompt_to_sample_hash_text prompt (get_model_cache_key lm) in
  with_connection (
    execute SELECT_FROM_CacheLmPrediction_WHERE_sample_params [VText sample_hash] ;;
    ret_ <- fetchone ;;
    match ret_ with
    | None => ret None
    | Some r =>
        if negb (len r =? 5) then raise AssertionError
        else
          let completion_text := col 2 r in
          let metad_bytes := col 3 r in
          ret (Some (parse_from_cache (find_prediction_class lm prompt)
                       completion_text prompt metad_bytes))
    end).

Record SqlBackedCache := { _lm : LmPredictor }.

Definition __init__ (lm : LmPredictor) : M disk SqlBackedCache :=
  create_tables ;;
  ret {| _lm := lm |}.

Definition __contains__ (self : SqlBackedCache) (prompt : LmPrompt)
    : M disk bool :=
  r <- get_from_cache prompt (_lm self) ;;
  ret (is_not_None r).

Definition get (self : SqlBackedCache) (prompt : LmPrompt)
    : M disk (option LmPrediction) :=
  get_from_cache prompt (_lm self).

Definition add (now : pystr) (self : SqlBackedCache) (prediction : LmPrediction)
    : M disk unit :=
  add_prediction_to_cache now prediction (get_model_cache_key (_lm self)).

(** [prompt] is an [LmPrompt] by its type, so the [ValueError] branch is
    not taken. *)
Definition delete (self : SqlBackedCache) (prompt : LmPrompt) : M disk bool :=
  let sample_hash :=
    prompt_to_sample_hash_text prompt (get_model_cache_key (_lm self)) in
  with_connection (
    execute DELETE_FROM_CacheLmPrediction_WHERE_sample_params [VText sample_hash] ;;
    execute DELETE_FROM_CacheLmPromptSampleParams_WHERE_sample_hash
      [VText sample_hash] ;;
    commit ;;
    n <- get_rowcount ;;
    let data_deleted := n >? 0 in
    let text_hash := prompt_to_text_hash prompt in
    execute SELECT_COUNT_FROM_CacheLmPromptSampleParams_WHERE_text_hash
      [VText text_hash] ;;
    cnt <- fetchone ;;
    match cnt with
    | Some (VInt 0 :: _) =>
        execute DELETE_FROM_CacheLmPromptText_WHERE_text_hash [VText text_hash] ;;
        commit
    | _ => ret tt
    end ;;
    ret data_deleted).

End Cache.

(* ===================================================================== *)
(** ** Vocabulary of the statements below *)
(* ===================================================================== *)

(** The last [m] items of [s]. *)
Definition lastn {A} (m : nat) (s : list A) : list A := skipn (List.length s - m) s.

(** A database whose three tables exist. *)
Definition tables (texts params predictions : table) : database :=
  {| CacheLmPromptText := Some texts;
     CacheLmPromptSampleParams := Some params;
     CacheLmPrediction := Some predictions |}.

(** Storage on which no statement fails. *)
Definition healthy (f : option database) : disk :=
  {| cache_file := f; io_fault := None |}.

(** Storage on which the statement after the next [k] ones fails. *)
Definition failing_after (k : nat) (f : option database) : disk :=
  {| cache_file := f; io_fault := Some k |}.

Definition table_rows (t : option table) : table :=
  match t with Some rs => rs | None => [] end.

(** The rows the file holds, table by table; none while the file or the
    table is missing. *)
Definition stored (f : option database) : table * table * table :=
  match f with
  | None => ([], [], [])
  | Some db =>
      (table_rows (CacheLmPromptText db),
       table_rows (CacheLmPromptSampleParams db),
       table_rows (CacheLmPrediction db))
  end.

(** Some row of the table has the key [k] in column [i]. *)
Definition has_key (i : nat) (k : pystr) (t : table) : bool :=
  existsb (where_eq i (VText k)) t.

(** The state of the tables between operations that ran to their end:
    - a sample key is in CacheLmPromptSampleParams exactly when a
      prediction is recorded under it;
    - the text key of a row of CacheLmPromptSampleParams is the first 32
      characters of its sample key;
    - every row of CacheLmPromptText is referenced from
      CacheLmPromptSampleParams. *)
Record consistent (texts params predictions : table) : Prop := {
  params_iff_predictions :
    forall h, has_key 1 h params = has_key 0 h predictions;
  params_text_prefix :
    Forall (fun r => exists h, col 1 r = VText h /\ col 0 r = VText (firstn 32 h))
           params;
  texts_referenced :
    Forall (fun r => exists t, col 0 r = VText t /\ has_key 0 t params = true)
           texts
}.

Section Reachable.
Context `{Externals}.

(** The calls a client can make. *)
Inductive call :=
| Call_create_tables
| Call_create_from_prompt_text (p : LmPrompt)
| Call_create_from_prompt_sample_params (p : LmPrompt) (model_key : pystr)
| Call_add_prediction_to_cache (now : pystr) (x : LmPrediction) (model_key : pystr)
| Call_get_from_cache (p : LmPrompt) (lm : LmPredictor)
| Call_contains (self : SqlBackedCache) (p : LmPrompt)
| Call_delete (self : SqlBackedCache) (p : LmPrompt).

Definition perform (c : call) (d : disk) : disk :=
  match c with
  | Call_create_tables => snd (create_tables d)
  | Call_create_from_prompt_text p => snd (create_from_prompt_text p d)
  | Call_create_from_prompt_sample_params p m =>
      snd (create_from_prompt_sample_params p m d)
  | Call_add_prediction_to_cache now x m => snd (add_prediction_to_cache now x m d)
  | Call_get_from_cache p lm => snd (get_from_cache p lm d)
  | Call_contains self p => snd (__contains__ self p d)
  | Call_delete self p => snd (delete self p d)
  end.

(** The files that calls on healthy storage produce from no file. *)
Inductive reachable : option database -> Prop :=
| reachable_fresh : reachable None
| reachable_call f c :
    reachable f -> reachable (cache_file (perform c (healthy f))).

End Reachable.

(* ===================================================================== *)
(** ** A concrete setting *)
(* ===================================================================== *)

Module Demo.

Definition decimal (z : Z) : pystr :=
  lit (DecimalString.NilZero.string_of_int (Z.to_int z)).

Definition quoted (s : pystr) : pystr := lit "'" ++ s ++ lit "'".

Definition str_of_bool (b : bool) : pystr :=
  if b then lit "True" else lit "False".

Fixpoint join (sep : pystr) (l : list pystr) : pystr :=
  match l with
  | [] => []
  | [x] => x
  | x :: rest => x ++ sep ++ join sep rest
  end.

(** A rendering in the layout of a dictionary's [str]; floats print as the
    decimal of their bit pattern. *)
Definition render_dict (d : sample_class_dict) : pystr :=
  lit "{" ++
  join (lit ", ")
    [lit "'model_key': " ++ quoted (d_model_key d);
     lit "'max_tokens': " ++ decimal (d_max_tokens d);
     lit "'temperature': " ++ decimal (Z.of_N (d_temperature d));
     lit "'top_p': " ++ decimal (Z.of_N (d_top_p d));
     lit "'presence_penalty': " ++ decimal (Z.of_N (d_presence_penalty d));
     lit "'frequency_penalty': " ++ decimal (Z.of_N (d_frequency_penalty d));
     lit "'add_bos_token': " ++ quoted (d_add_bos_token d);
     lit "'echo': " ++ str_of_bool (d_echo d);
     lit "'add_special_tokens': " ++ str_of_bool (d_add_special_tokens d);
     lit "'has_internals_request': " ++ str_of_bool (d_has_internals_request d);
     lit "'stop': " ++ quoted (d_stop d)]
  ++ lit "}".

Definition render_list (l : list pystr) : pystr :=
  lit "[" ++ join (lit ", ") (map quoted l) ++ lit "]".

#[export] Instance python : Externals :=
  {| xxh64_intdigest := XXH64.intdigest;
     str_of_dict := render_dict;
     str_of_list := render_list;
     Metad := list byte |}.

(** The prompt of the specification's scenario. *)
Definition once_upon_a : LmPrompt :=
  {| get_text_as_string_default_form := lit "Once upon a";
     max_tokens := 1;
     stop := None;
     logprobs := 1;
     temperature := 0%N;
     top_p := 4607182418800017408%N;
     presence_penalty := 0%N;
     frequency_penalty := 0%N;
     num_completions := 1;
     cache := Some true;
     echo := false;
     add_bos_token := None;
     add_special_tokens := true;
     model_internals_request := None |}.

(** The same text with other sampling parameters. *)
Definition once_upon_a_5 : LmPrompt :=
  {| get_text_as_string_default_form := lit "Once upon a";
     max_tokens := 5;
     stop := None;
     logprobs := 1;
     temperature := 0%N;
     top_p := 4607182418800017408%N;
     presence_penalty := 0%N;
     frequency_penalty := 0%N;
     num_completions := 1;
     cache := Some true;
     echo := false;
     add_bos_token := None;
     add_special_tokens := true;
     model_internals_request := None |}.

(** The same request as [once_upon_a], with fields the keys ignore
    changed. *)
Definition once_upon_a_uncached : LmPrompt :=
  {| get_text_as_string_default_form := lit "Once upon a";
     max_tokens := 1;
     stop := None;
     logprobs := 5;
     temperature := 0%N;
     top_p := 4607182418800017408%N;
     presence_penalty := 0%N;
     frequency_penalty := 0%N;
     num_completions := 3;
     cache := Some false;
     echo := false;
     add_bos_token := None;
     add_special_tokens := true;
     model_internals_request := None |}.

Definition blob_bytes (v : value) : list byte :=
  match v with VBlob b => b | _ => [] end.

Definition text_chars (v : value) : pystr :=
  match v with VText s => s | _ => [] end.

(** A prediction class whose metadata are the stored bytes. *)
Definition plain_class : prediction_class :=
  {| parse_from_cache := fun c p b =>
       {| completion_text := text_chars c; prompt := p; metad := blob_bytes b;
          class_name := lit "LmPrediction";
          serialize_metad_for_cache := blob_bytes b |} |}.

Definition test_model : LmPredictor :=
  {| get_model_cache_key := lit "test-model";
     find_prediction_class := fun _ => plain_class |}.

Definition time_prediction : LmPrediction :=
  {| completion_text := lit " time"; prompt := once_upon_a;
     metad := [x01; x02]; class_name := lit "LmPrediction";
     serialize_metad_for_cache := [x01; x02] |}.

Definition time_prediction_5 : LmPrediction :=
  {| completion_text := lit " time there was a"; prompt := once_upon_a_5;
     metad := [x03]; class_name := lit "LmPrediction";
     serialize_metad_for_cache := [x03] |}.

Definition noon : pystr := lit "2023-06-01T12:00:00".

Definition facade : SqlBackedCache := {| _lm := test_model |}.

(** The file after [time_prediction] was added to a fresh cache. *)
Definition one_prediction : disk :=
  snd (add noon facade time_prediction (healthy None)).

(** The file after the same prediction was added a second time. *)
Definition two_predictions : disk :=
  snd (add noon facade time_prediction one_prediction).

(** Another prediction for the request of [time_prediction]. *)
Definition day_prediction : LmPrediction :=
  {| completion_text := lit " day"; prompt := once_upon_a;
     metad := [x07]; class_name := lit "LmPrediction";
     serialize_metad_for_cache := [x07] |}.

(** [once_upon_a] with another text. *)
Definition with_text (text : string) : LmPrompt :=
  {| get_text_as_string_default_form := lit text;
     max_tokens := 1;
     stop := None;
     logprobs := 1;
     temperature := 0%N;
     top_p := 4607182418800017408%N;
     presence_penalty := 0%N;
     frequency_penalty := 0%N;
     num_completions := 1;
     cache := Some true;
     echo := false;
     add_bos_token := None;
     add_special_tokens := true;
     model_internals_request := None |}.

End Demo.

(** ** The tables after a statement *)

(** [INSERT OR IGNORE] of the row [r] whose primary key is column [key]. *)
Definition upsert (key : nat) (r : row) (t : table) : table :=
  if existsb (where_eq key (col key r)) t then t else t ++ [r].

(** [DELETE ... WHERE column i = k]. *)
Definition without (i : nat) (k : pystr) (t : table) : table :=
  filter (fun r => negb (where_eq i (VText k) r)) t.

(** [SELECT ... WHERE column i = k]. *)
Definition matching (i : nat) (k : pystr) (t : table) : table :=
  filter (where_eq i (VText k)) t.

Section Rows.
Context `{Externals}.

Definition text_row (p : LmPrompt) : row :=
  [VText (prompt_to_text_hash p); VText (get_text_as_string_default_form p)].

Definition params_row (p : LmPrompt) (model_key : pystr) : row :=
  sample_params_row (prompt_to_text_hash p)
    (prompt_to_sample_hash_text p model_key)
    (prompt_to_only_sample_class_dict p model_key).

Definition prediction_row (now : pystr) (x : LmPrediction) (model_key : pystr)
    : row :=
  [VText (prompt_to_sample_hash_text (prompt x) model_key);
   VText (class_name x); VText (completion_text x);
   VBlob (serialize_metad_for_cache x); VText now].

End Rows.

(** The rows of each table of a file. *)
Definition texts_of (f : option database) : table := fst (fst (stored f)).
Definition params_of (f : option database) : table := snd (fst (stored f)).
Definition predictions_of (f : option database) : table := snd (stored f).

(** A file the cache can work on: not there yet, or with its three tables. *)
Definition ready (f : option database) : Prop :=
  f = None \/ exists ts ps rs, f = Some (tables ts ps rs).

(** What holds of every file that calls on healthy storage produce. *)
Definition sound (f : option database) : Prop :=
  f = None \/ f = Some empty_database \/
  exists ts ps rs, f = Some (tables ts ps rs) /\ consistent ts ps rs.

(** Every row of [params] that references the text key [t] has one of the
    sample keys [h1], [h2]. *)
Definition referenced_only_by (t h1 h2 : pystr) (params : table) : Prop :=
  forall r, In r params -> col 0 r = VText t ->
            col 1 r = VText h1 \/ col 1 r = VText h2.

(** ** Vocabulary of the further properties *)

(** CREATE TABLE, which takes effect at once outside a transaction. *)
Definition is_ddl (q : sql) : bool :=
  match q with
  | CREATE_TABLE_IF_NOT_EXISTS_CacheLmPromptText
  | CREATE_TABLE_IF_NOT_EXISTS_CacheLmPromptSampleParams
  | CREATE_TABLE_IF_NOT_EXISTS_CacheLmPrediction => true
  | _ => false
  end.

Definition statement_sql (s : statement) : sql :=
  match s with
  | Str q => q
  | Tuple q _ => q
  end.

(** The queries whose writes all fall into one transaction: a single
    statement, a list that opens with BEGIN, a list without CREATE TABLE. *)
Definition one_transaction (q : query) : bool :=
  match q with
  | QStr _ => true
  | QTuple _ _ => true
  | QList qs =>
      match qs with
      | Str BEGIN :: _ => true
      | _ => forallb (fun s => negb (is_ddl (statement_sql s))) qs
      end
  end.

(** The database a connection to the file starts from. *)
Definition opened (f : option database) : database :=
  match f with Some db => db | None => empty_database end.

(** The rows have the widths of the schema. *)
Definition schema_widths (texts params predictions : table) : Prop :=
  Forall (fun r => List.length r = 2%nat) texts /\
  Forall (fun r => List.length r = 13%nat) params /\
  Forall (fun r => List.length r = 5%nat) predictions.

(** No two rows of the table have the same value in column [i]. *)
Definition unique_keys (i : nat) (t : table) : Prop := NoDup (map (col i) t).

(** The number of characters of the text that the text key shows in full:
    a text of at most 14 characters appears reversed in its key. *)
Definition shown_in_full (text : pystr) : bool := (List.length text <=? 14)%nat.

(** The connection has committed nothing beyond [db0]: the file holds
    [db0], and so does the connection's view while no transaction is open. *)
Definition untouched (db0 : database) (c : connection) : Prop :=
  durable c = db0 /\ (in_transaction c = false -> current c = db0).

(* ===================================================================== *)
(** * Properties *)
(* ===================================================================== *)

(** ** Slices *)

Lemma len_nonneg {A} (s : list A) : 0 <= len s.
Proof. unfold len. lia. Qed.

Lemma slice_to_firstn {A} (s : list A) (j : Z) :
  0 <= j -> slice_to s j = firstn (Z.to_nat j) s.
Proof.
  intros Hj. unfold slice_to, slice_bound.
  destruct (j <? 0) eqn:E; [apply Z.ltb_lt in E; lia|].
  destruct (Nat.le_ge_cases (Z.to_nat j) (List.length s)) as [Hle | Hge].
  - now rewrite Nat.min_r.
  - rewrite Nat.min_l by assumption.
    now rewrite !firstn_all2 by lia.
Qed.

Lemma slice_from_lastn {A} (s : list A) (m : Z) :
  0 < m -> slice_from s (- m) = lastn (Z.to_nat m) s.
Proof.
  intros Hm. unfold slice_from, slice_bound, lastn.
  destruct (- m <? 0) eqn:E; [|apply Z.ltb_ge in E; lia].
  f_equal. lia.
Qed.

Lemma length_lastn {A} (m : nat) (s : list A) :
  List.length (lastn m s) = Nat.min m (List.length s).
Proof. unfold lastn. rewrite length_skipn. lia. Qed.

Lemma length_str_mul c n : List.length (str_mul c n) = Z.to_nat n.
Proof. unfold str_mul. apply repeat_length. Qed.

(** ** The digest *)

Section FingerprintFacts.
Context `{Externals}.

Lemma xxh64_digest_length data : List.length (xxh64_digest data) = 8%nat.
Proof. reflexivity. Qed.

Lemma b64encode_8_bytes bs :
  List.length bs = 8%nat -> List.length (Base64.b64encode bs) = 12%nat.
Proof.
  intros Hl.
  do 8 (destruct bs as [|? bs]; [discriminate Hl|]).
  destruct bs; [reflexivity | discriminate Hl].
Qed.

Lemma b64_xxh64_length s : List.length (b64_xxh64 s) = 12%nat.
Proof. unfold b64_xxh64. apply b64encode_8_bytes, xxh64_digest_length. Qed.

Lemma len_b64_xxh64 s : len (b64_xxh64 s) = 12.
Proof. unfold len. now rewrite b64_xxh64_length. Qed.

(** The text key, fragment by fragment. *)
Lemma prompt_to_text_hash_fragments (p : LmPrompt) :
  let text := get_text_as_string_default_form p in
  let k := Nat.min 6 (List.length text) in
  let m := Nat.min (20 - k) (List.length text) in
  prompt_to_text_hash p =
    firstn k text ++ rev (lastn m text) ++ b64_xxh64 text
      ++ repeat "_"%char (32 - (k + m + 12)).
Proof.
  intros text k m. unfold prompt_to_text_hash. fold text.
  rewrite len_b64_xxh64. unfold _text_hash_len.
  change ((32 - 12) / 3) with 6. change (32 - 12) with 20.
  assert (Hs : slice_to text (Z.min 6 (len text)) = firstn k text).
  { rewrite slice_to_firstn by (pose proof (len_nonneg text); lia).
    f_equal. unfold k, len. lia. }
  rewrite Hs.
  assert (Hk : len (firstn k text) = Z.of_nat k).
  { unfold len. rewrite length_firstn. unfold k. lia. }
  rewrite Hk.
  assert (He : slice_from text (- Z.min (20 - Z.of_nat k) (len text))
               = lastn m text).
  { destruct text as [|c text'] eqn:Et.
    - reflexivity.
    - rewrite slice_from_lastn by (unfold k, len; cbn [List.length]; lia).
      f_equal. unfold m, k, len. cbn [List.length]. lia. }
  rewrite He.
  assert (Hlen : len (firstn k text ++ rev (lastn m text) ++ b64_xxh64 text)
                 = Z.of_nat (k + m + 12)).
  { unfold len. rewrite !length_app, length_rev, length_lastn,
      length_firstn, b64_xxh64_length. unfold m, k. lia. }
  rewrite Hlen.
  assert (Hb : (k + m + 12 <= 32)%nat) by (unfold m, k; lia).
  destruct (Z.of_nat (k + m + 12) <? 32) eqn:E.
  - unfold str_mul. rewrite <- !app_assoc. do 3 f_equal.
    f_equal. clear E. lia.
  - apply Z.ltb_ge in E.
    replace (32 - (k + m + 12))%nat with 0%nat by lia.
    cbn [repeat]. now rewrite !app_nil_r.
Qed.

Lemma prompt_to_text_hash_length (p : LmPrompt) :
  List.length (prompt_to_text_hash p) = 32%nat.
Proof.
  rewrite prompt_to_text_hash_fragments.
  rewrite !length_app, length_rev, length_lastn, length_firstn,
    b64_xxh64_length, repeat_length.
  lia.
Qed.

Lemma prompt_to_sample_params_hash_eq (p : LmPrompt) (model_key : pystr) :
  prompt_to_sample_params_hash p model_key =
    firstn 11 (b64_xxh64 (str_of_dict (prompt_to_only_sample_class_dict p model_key))).
Proof.
  unfold prompt_to_sample_params_hash.
  rewrite len_b64_xxh64.
  unfold _text_and_sample_hash_len, _text_hash_len.
  change (12 <? 43 - 32) with false. change (12 >? 43 - 32) with true.
  cbv iota. now rewrite slice_to_firstn by lia.
Qed.

Lemma prompt_to_sample_params_hash_length (p : LmPrompt) (model_key : pystr) :
  List.length (prompt_to_sample_params_hash p model_key) = 11%nat.
Proof.
  rewrite prompt_to_sample_params_hash_eq, length_firstn, b64_xxh64_length.
  reflexivity.
Qed.

Lemma firstn_32_sample_hash (p : LmPrompt) (model_key : pystr) :
  firstn 32 (prompt_to_sample_hash_text p model_key) = prompt_to_text_hash p.
Proof.
  unfold prompt_to_sample_hash_text.
  rewrite <- (prompt_to_text_hash_length p) at 1.
  rewrite firstn_app, Nat.sub_diag, firstn_all. cbn [firstn].
  apply app_nil_r.
Qed.

End FingerprintFacts.

(** ** The keys *)

(** C8. The text key has exactly 32 characters for every prompt text, the
    empty one and those shorter than the key included.  It is made of the
    first [k] characters of the text, its last [m] characters reversed, the
    12 characters of the base64 form of the 8-byte digest, and as many
    filler characters as it takes to reach 32; [k] is the integer third of
    the 20 characters left beside the digest and [m] is what remains of the
    20 after [k], each capped by the length of the text. *)
Theorem text_key_fixed_width `{Externals} (p : LmPrompt) :
  let text := get_text_as_string_default_form p in
  let k := Nat.min (20 / 3) (List.length text) in
  let m := Nat.min (20 - k) (List.length text) in
  List.length (prompt_to_text_hash p) = 32%nat /\
  List.length (xxh64_digest (encode text)) = 8%nat /\
  List.length (b64_xxh64 text) = 12%nat /\
  prompt_to_text_hash p =
    firstn k text ++ rev (lastn m text) ++ b64_xxh64 text
      ++ repeat "_"%char (32 - (k + m + 12)).
Proof.
  intros text k m.
  split; [apply prompt_to_text_hash_length|].
  split; [apply xxh64_digest_length|].
  split; [apply b64_xxh64_length|].
  apply prompt_to_text_hash_fragments.
Qed.

Section KeysOnDemo.
#[local] Existing Instance Demo.python.

Example xxh64_of_nothing : XXH64.intdigest [] = 17241709254077376921%N.
Proof. vm_compute. reflexivity. Qed.

Example xxh64_of_abc : XXH64.intdigest (encode (lit "abc")) = 4952883123889572249%N.
Proof. vm_compute. reflexivity. Qed.

Example xxh64_of_a_sentence :
  XXH64.intdigest (encode (lit "Nobody inspects the spammish repetition"))
  = 18144624926692707313%N.
Proof. vm_compute. reflexivity. Qed.

Example b64encode_Man : Base64.b64encode (encode (lit "Man")) = lit "TWFu".
Proof. vm_compute. reflexivity. Qed.

Example b64encode_padded :
  Base64.b64encode (encode (lit "light work")) = lit "bGlnaHQgd29yaw==".
Proof. vm_compute. reflexivity. Qed.

(** A text shorter than the 20 characters left beside the digest: all of it,
    then all of it reversed, then the digest and three fillers. *)
Example text_key_of_a_short_text :
  prompt_to_text_hash Demo.once_upon_a = lit "Once ua nopu ecnO+FSeR2vR8Ck=___".
Proof. vm_compute. reflexivity. Qed.

Example text_key_of_the_empty_text :
  prompt_to_text_hash (Demo.with_text "") = lit "70bbN1HY6Zk=____________________".
Proof. vm_compute. reflexivity. Qed.

(** A long text: its first 6 and its last 14 characters, no filler. *)
Example text_key_of_a_long_text :
  firstn 20 (prompt_to_text_hash (Demo.with_text "Here is a story. Once upon a"))
  = lit "Here ia nopu ecnO .y".
Proof. vm_compute. reflexivity. Qed.

Example sample_key_of_a_request :
  prompt_to_sample_hash_text Demo.once_upon_a (lit "test-model")
  = lit "Once ua nopu ecnO+FSeR2vR8Ck=___hddHmiVo2Bo".
Proof. vm_compute. reflexivity. Qed.

End KeysOnDemo.

(** C7. The sample key is the 32-character text key followed by an
    11-character segment, the first 11 characters of the base64 digest of
    the sample parameters, 43 characters in all; so two requests with the
    same prompt text have sample keys with the same first 32 characters. *)
Theorem sample_key_structure `{Externals} (p q : LmPrompt) (m m' : pystr) :
  get_text_as_string_default_form p = get_text_as_string_default_form q ->
  prompt_to_sample_hash_text p m =
    prompt_to_text_hash p ++ prompt_to_sample_params_hash p m /\
  prompt_to_sample_params_hash p m =
    firstn 11 (b64_xxh64 (str_of_dict (prompt_to_only_sample_class_dict p m))) /\
  List.length (prompt_to_text_hash p) = 32%nat /\
  List.length (prompt_to_sample_params_hash p m) = 11%nat /\
  List.length (prompt_to_sample_hash_text p m) = 43%nat /\
  firstn 32 (prompt_to_sample_hash_text p m) =
    firstn 32 (prompt_to_sample_hash_text q m').
Proof.
  intros Htext.
  split; [reflexivity|].
  split; [apply prompt_to_sample_params_hash_eq|].
  split; [apply prompt_to_text_hash_length|].
  split; [apply prompt_to_sample_params_hash_length|].
  split.
  - unfold prompt_to_sample_hash_text.
    now rewrite length_app, prompt_to_text_hash_length,
      prompt_to_sample_params_hash_length.
  - rewrite !firstn_32_sample_hash.
    unfold prompt_to_text_hash. now rewrite Htext.
Qed.

Section SampleKeyOnDemo.
#[local] Existing Instance Demo.python.

Lemma sample_key_structure_witness :
List.length
  (prompt_to_sample_hash_text Demo.once_upon_a (lit "test-model")) = 43%nat /\
firstn 32 (prompt_to_sample_hash_text Demo.once_upon_a (lit "test-model")) =
  firstn 32 (prompt_to_sample_hash_text Demo.once_upon_a_5 (lit "other-model")).
Proof.
pose proof (sample_key_structure Demo.once_upon_a Demo.once_upon_a_5
              (lit "test-model") (lit "other-model") eq_refl) as W.
split; apply W.
Defined.

End SampleKeyOnDemo.

(** C9. The keys are functions of the request alone: two prompts with the
    same text have the same text key, and when they also agree on the
    sample parameters (for the internals request: on whether there is one)
    they have the same sample key under the same model identity.  An absent
    [add_bos_token] and an absent [stop] enter the hash input as the string
    "None", and the empty text has the key made of its digest and filler. *)
Theorem key_derivation_deterministic `{Externals} (p q : LmPrompt) (m : pystr) :
  get_text_as_string_default_form p = get_text_as_string_default_form q ->
  max_tokens p = max_tokens q ->
  temperature p = temperature q ->
  top_p p = top_p q ->
  presence_penalty p = presence_penalty q ->
  frequency_penalty p = frequency_penalty q ->
  add_bos_token p = add_bos_token q ->
  echo p = echo q ->
  add_special_tokens p = add_special_tokens q ->
  is_not_None (model_internals_request p) = is_not_None (model_internals_request q) ->
  stop p = stop q ->
  prompt_to_text_hash p = prompt_to_text_hash q /\
  prompt_to_sample_hash_text p m = prompt_to_sample_hash_text q m /\
  (add_bos_token p = None ->
   d_add_bos_token (prompt_to_only_sample_class_dict p m) = lit "None") /\
  (stop p = None ->
   d_stop (prompt_to_only_sample_class_dict p m) = lit "None") /\
  (get_text_as_string_default_form p = [] ->
   prompt_to_text_hash p = b64_xxh64 [] ++ repeat "_"%char 20).
Proof.
  intros Htext Hmax Htemp Htop Hpres Hfreq Hbos Hecho Hspecial Hint Hstop.
  assert (Ht : prompt_to_text_hash p = prompt_to_text_hash q).
  { unfold prompt_to_text_hash. now rewrite Htext. }
  assert (Hd : forall k, prompt_to_only_sample_class_dict p k =
                         prompt_to_only_sample_class_dict q k).
  { intros k. unfold prompt_to_only_sample_class_dict.
    now rewrite Hmax, Htemp, Htop, Hpres, Hfreq, Hbos, Hecho, Hspecial, Hint, Hstop. }
  split; [exact Ht|].
  split.
  { unfold prompt_to_sample_hash_text, prompt_to_sample_params_hash.
    now rewrite Ht, Hd. }
  split.
  { intros E. cbn. now rewrite E. }
  split.
  { intros E. cbn. now rewrite E. }
  intros E. rewrite prompt_to_text_hash_fragments, E. reflexivity.
Qed.

Section DeterminismOnDemo.
#[local] Existing Instance Demo.python.

Lemma key_derivation_deterministic_witness :
prompt_to_text_hash Demo.once_upon_a =
  prompt_to_text_hash Demo.once_upon_a_uncached /\
prompt_to_sample_hash_text Demo.once_upon_a (lit "test-model") =
  prompt_to_sample_hash_text Demo.once_upon_a_uncached (lit "test-model").
Proof.
pose proof (key_derivation_deterministic Demo.once_upon_a
              Demo.once_upon_a_uncached (lit "test-model")
              eq_refl eq_refl eq_refl eq_refl eq_refl eq_refl eq_refl eq_refl
              eq_refl eq_refl eq_refl) as W.
split; apply W.
Defined.

End DeterminismOnDemo.

(** ** Running the statements *)

(** Unfolds the connection and the statements, and leaves the tests on the
    rows of the tables in place. *)
Ltac run_sqlite :=
  cbv beta iota zeta delta
    [bind ret raise execute_query with_connection execute_all execute_statement
     execute commit rollback connect fetchone get_rowcount run_sql
     on_PromptText on_SampleParams on_Prediction insert_or_ignore insert
     select_where select_count_where delete_where create_if_not_exists
     placeholders is_dml healthy failing_after tables create_tables
     cache_file io_fault durable current in_transaction rowcount unread failing
     new_table changed rows CacheLmPromptText CacheLmPromptSampleParams
     CacheLmPrediction empty_database
     snd fst option_map Nat.pred List.length Nat.eqb orb negb sample_params_row
     col nth].

Section Operations.
Context `{Externals}.

Lemma add_on_tables now x m ts ps rs :
  add_prediction_to_cache now x m (healthy (Some (tables ts ps rs))) =
    (Ok tt,
     healthy (Some (tables (upsert 0 (text_row (prompt x)) ts)
                           (upsert 1 (params_row (prompt x) m) ps)
                           (rs ++ [prediction_row now x m])))).
Proof.
  unfold add_prediction_to_cache, text_row, params_row, prediction_row, upsert.
  generalize (prompt_to_sample_hash_text (prompt x) m) as h.
  generalize (prompt_to_text_hash (prompt x)) as t.
  generalize (prompt_to_only_sample_class_dict (prompt x) m) as d.
  intros d t h. run_sqlite.
  destruct (existsb (where_eq 0 (VText t)) ts);
    destruct (existsb (where_eq 1 (VText h)) ps); reflexivity.
Qed.

Lemma add_on_no_file now x m :
  add_prediction_to_cache now x m (healthy None) =
    (Ok tt,
     healthy (Some (tables [text_row (prompt x)] [params_row (prompt x) m]
                           [prediction_row now x m]))).
Proof. reflexivity. Qed.

Lemma get_on_tables p lm ts ps rs :
  get_from_cache p lm (healthy (Some (tables ts ps rs))) =
    (match matching 0 (prompt_to_sample_hash_text p (get_model_cache_key lm)) rs with
     | [] => Ok None
     | r :: _ =>
         if negb (len r =? 5) then Raise AssertionError
         else Ok (Some (parse_from_cache (find_prediction_class lm p)
                          (col 2 r) p (col 3 r)))
     end,
     healthy (Some (tables ts ps rs))).
Proof.
  unfold get_from_cache, matching.
  generalize (prompt_to_sample_hash_text p (get_model_cache_key lm)) as h.
  intros h. run_sqlite.
  destruct (filter (where_eq 0 (VText h)) rs) as [|r l]; [reflexivity|].
  destruct (len r =? 5); reflexivity.
Qed.

Lemma get_on_no_file p lm :
  get_from_cache p lm (healthy None) = (Ok None, healthy (Some (tables [] [] []))).
Proof. reflexivity. Qed.

Lemma delete_on_tables self p ts ps rs :
  let h := prompt_to_sample_hash_text p (get_model_cache_key (_lm self)) in
  let t := prompt_to_text_hash p in
  delete self p (healthy (Some (tables ts ps rs))) =
    (Ok (len (matching 1 h ps) >? 0),
     healthy (Some (tables
                      (if len (matching 0 t (without 1 h ps)) =? 0
                       then without 0 t ts else ts)
                      (without 1 h ps)
                      (without 0 h rs)))).
Proof.
  unfold delete, matching, without.
  generalize (prompt_to_sample_hash_text p (get_model_cache_key (_lm self))) as h.
  generalize (prompt_to_text_hash p) as t.
  intros t h. run_sqlite.
  destruct (len (filter (where_eq 0 (VText t))
                   (filter (fun r => match where_eq 1 (VText h) r with
                                     | true => false | false => true end) ps)))
    as [|n|n]; reflexivity.
Qed.

End Operations.

(** ** Keys and rows *)

Lemma pystr_eqb_eq a b : pystr_eqb a b = true <-> a = b.
Proof.
  unfold pystr_eqb. destruct (list_eq_dec ascii_dec a b); split; congruence.
Qed.

Lemma pystr_eqb_refl a : pystr_eqb a a = true.
Proof. now apply pystr_eqb_eq. Qed.

Lemma pystr_eqb_neq a b : a <> b -> pystr_eqb a b = false.
Proof.
  intros Hn. destruct (pystr_eqb a b) eqn:E; [|reflexivity].
  now apply pystr_eqb_eq in E.
Qed.

Lemma VText_inj a b : VText a = VText b -> a = b.
Proof. congruence. Qed.

Lemma where_eq_text i k r : where_eq i (VText k) r = true <-> col i r = VText k.
Proof.
  unfold where_eq, sql_eq. destruct (col i r); split; try discriminate.
  - intros E. apply pystr_eqb_eq in E. congruence.
  - intros E. injection E as ->. apply pystr_eqb_refl.
Qed.

Lemma where_eq_other i k k' r :
  where_eq i (VText k) r = true -> k <> k' -> where_eq i (VText k') r = false.
Proof.
  intros E Hn. destruct (where_eq i (VText k') r) eqn:E'; [|reflexivity].
  apply where_eq_text in E, E'. congruence.
Qed.

Lemma has_key_app i k t u : has_key i k (t ++ u) = has_key i k t || has_key i k u.
Proof. apply existsb_app. Qed.

Lemma has_key_true i k t :
  has_key i k t = true <-> exists r, In r t /\ col i r = VText k.
Proof.
  unfold has_key. rewrite existsb_exists.
  split; intros [r [Hin E]]; exists r; (split; [assumption|]);
    now apply where_eq_text.
Qed.

Lemma has_key_false i k t :
  has_key i k t = false <-> forall r, In r t -> where_eq i (VText k) r = false.
Proof.
  unfold has_key. split.
  - intros E r Hin. destruct (where_eq i (VText k) r) eqn:Er; [|reflexivity].
    assert (existsb (where_eq i (VText k)) t = true)
      by (apply existsb_exists; eauto).
    congruence.
  - intros Hall. destruct (existsb (where_eq i (VText k)) t) eqn:E; [|reflexivity].
    apply existsb_exists in E. destruct E as [r [Hin Er]].
    rewrite (Hall r Hin) in Er. discriminate.
Qed.

Lemma matching_nil_iff i k t : matching i k t = [] <-> has_key i k t = false.
Proof.
  unfold matching. rewrite has_key_false. split.
  - intros E r Hin. destruct (where_eq i (VText k) r) eqn:Er; [|reflexivity].
    assert (Hf : In r (filter (where_eq i (VText k)) t))
      by (apply filter_In; auto).
    rewrite E in Hf. destruct Hf.
  - intros Hall. induction t as [|r t IH]; [reflexivity|].
    cbn. rewrite (Hall r (or_introl eq_refl)). apply IH.
    intros r' Hin. apply Hall. now right.
Qed.

Lemma without_absent i k t : has_key i k t = false -> without i k t = t.
Proof.
  rewrite has_key_false. intros Hall. unfold without.
  induction t as [|r t IH]; [reflexivity|].
  cbn. rewrite (Hall r (or_introl eq_refl)). cbn. f_equal.
  apply IH. intros r' Hin. apply Hall. now right.
Qed.

Lemma has_key_without_same i k t : has_key i k (without i k t) = false.
Proof.
  apply has_key_false. intros r Hin. unfold without in Hin.
  apply filter_In in Hin. destruct Hin as [_ E].
  now apply negb_true_iff in E.
Qed.

Lemma has_key_without_other i k k' t :
  k <> k' -> has_key i k (without i k' t) = has_key i k t.
Proof.
  intros Hn. unfold has_key, without.
  induction t as [|r t IH]; [reflexivity|].
  cbn. destruct (where_eq i (VText k') r) eqn:E'; cbn.
  - rewrite IH. rewrite (where_eq_other i k' k r E') by congruence. reflexivity.
  - now rewrite IH.
Qed.

Lemma matching_without_same i k t : matching i k (without i k t) = [].
Proof. apply matching_nil_iff, has_key_without_same. Qed.

Lemma matching_app i k t u : matching i k (t ++ u) = matching i k t ++ matching i k u.
Proof. apply filter_app. Qed.

Lemma length_without i k t :
  (List.length (without i k t) + List.length (matching i k t) = List.length t)%nat.
Proof.
  unfold without, matching. induction t as [|r t IH]; [reflexivity|].
  cbn. destruct (where_eq i (VText k) r); cbn; lia.
Qed.

Lemma matching_positive i k t : (len (matching i k t) >? 0) = has_key i k t.
Proof.
  destruct (has_key i k t) eqn:E.
  - destruct (matching i k t) eqn:Em.
    + apply matching_nil_iff in Em. congruence.
    + unfold len. cbn [List.length]. apply Z.gtb_lt. lia.
  - apply matching_nil_iff in E. now rewrite E.
Qed.

Lemma matching_zero i k t : (len (matching i k t) =? 0) = negb (has_key i k t).
Proof.
  destruct (has_key i k t) eqn:E; cbn.
  - destruct (matching i k t) eqn:Em.
    + apply matching_nil_iff in Em. congruence.
    + apply Z.eqb_neq. unfold len. cbn [List.length]. lia.
  - apply matching_nil_iff in E. now rewrite E.
Qed.

(** ** Recording and looking up *)

(** C1. After [add_prediction_to_cache] stored a prediction under a model
    identity, on a cache that held no prediction under the same sample key,
    [get_from_cache] of its prompt with that model returns a record: the one
    [parse_from_cache] builds from the prediction's own completion text and
    serialized metadata.  With a class whose [parse_from_cache] keeps the
    completion text it is given and decodes these bytes to the prediction's
    metadata, the record has the completion text and the metadata of the
    prediction. *)
Theorem insert_then_lookup `{Externals}
    (now : pystr) (x : LmPrediction) (lm : LmPredictor) (f : option database) :
  let h := prompt_to_sample_hash_text (prompt x) (get_model_cache_key lm) in
  let cls := find_prediction_class lm (prompt x) in
  ready f ->
  has_key 0 h (predictions_of f) = false ->
  (forall c q b, completion_text (parse_from_cache cls (VText c) q b) = c) ->
  (forall c, metad (parse_from_cache cls c (prompt x)
                      (VBlob (serialize_metad_for_cache x))) = metad x) ->
  exists d y,
    add_prediction_to_cache now x (get_model_cache_key lm) (healthy f) = (Ok tt, d) /\
    get_from_cache (prompt x) lm d = (Ok (Some y), d) /\
    y = parse_from_cache cls (VText (completion_text x)) (prompt x)
          (VBlob (serialize_metad_for_cache x)) /\
    completion_text y = completion_text x /\
    metad y = metad x.
Proof.
  intros h cls Hready Hnew Htext Hmetad.
  assert (Hrow : matching 0 h [prediction_row now x (get_model_cache_key lm)]
                 = [prediction_row now x (get_model_cache_key lm)]).
  { unfold matching. cbn [filter].
    replace (where_eq 0 (VText h) (prediction_row now x (get_model_cache_key lm)))
      with true; [reflexivity|].
    symmetry. now apply where_eq_text. }
  destruct Hready as [-> | (ts & ps & rs & ->)].
  - eexists. eexists. split; [apply add_on_no_file|].
    rewrite get_on_tables. fold h. rewrite Hrow.
    split; [reflexivity|]. split; [reflexivity|]. split; [apply Htext | apply Hmetad].
  - cbn in Hnew.
    eexists. eexists. split; [apply add_on_tables|].
    rewrite get_on_tables. fold h.
    rewrite matching_app, Hrow.
    apply matching_nil_iff in Hnew. rewrite Hnew.
    split; [reflexivity|]. split; [reflexivity|]. split; [apply Htext | apply Hmetad].
Qed.

Section LookupDemo.
#[local] Existing Instance Demo.python.

Lemma insert_then_lookup_witness :
  exists d y,
    add_prediction_to_cache Demo.noon Demo.time_prediction (lit "test-model")
      (healthy None) = (Ok tt, d) /\
    get_from_cache Demo.once_upon_a Demo.test_model d = (Ok (Some y), d) /\
    completion_text y = lit " time" /\
    metad y = [x01; x02].
Proof.
  destruct (insert_then_lookup Demo.noon Demo.time_prediction Demo.test_model None)
    as (d & y & Hadd & Hget & _ & Htext & Hmetad).
  - left. reflexivity.
  - reflexivity.
  - reflexivity.
  - reflexivity.
  - exists d, y. repeat split; assumption.
Defined.

End LookupDemo.

Section Lookup.
Context `{Externals}.

(** A lookup needs the predictions table only. *)
Lemma get_on_file p lm tt tp rs :
  let db := {| CacheLmPromptText := tt; CacheLmPromptSampleParams := tp;
               CacheLmPrediction := Some rs |} in
  get_from_cache p lm (healthy (Some db)) =
    (match matching 0 (prompt_to_sample_hash_text p (get_model_cache_key lm)) rs with
     | [] => Ok None
     | r :: _ =>
         if negb (len r =? 5) then Raise AssertionError
         else Ok (Some (parse_from_cache (find_prediction_class lm p)
                          (col 2 r) p (col 3 r)))
     end,
     healthy (Some db)).
Proof.
  unfold get_from_cache, matching.
  generalize (prompt_to_sample_hash_text p (get_model_cache_key lm)) as h.
  intros h. run_sqlite.
  destruct (filter (where_eq 0 (VText h)) rs) as [|r l]; [reflexivity|].
  destruct (len r =? 5); reflexivity.
Qed.

(** When [delete] returns, the predictions under the sample key are gone. *)
Lemma delete_returns self p d b d' :
  delete self p d = (Ok b, d') ->
  exists tt tp rs,
    cache_file d' =
      Some {| CacheLmPromptText := tt;
              CacheLmPromptSampleParams := tp;
              CacheLmPrediction :=
                Some (without 0 (prompt_to_sample_hash_text p
                                   (get_model_cache_key (_lm self))) rs) |}.
Proof.
  unfold delete, without.
  generalize (prompt_to_sample_hash_text p (get_model_cache_key (_lm self))) as h.
  generalize (prompt_to_text_hash p) as t.
  intros t h.
  destruct d as [[[[ts|] [ps|] [rs|]]|] [[|[|[|[|k]]]]|]];
    run_sqlite; try discriminate;
    destruct (len (filter (where_eq 0 (VText t))
                     (filter (fun r => match where_eq 1 (VText h) r with
                                       | true => false | false => true end) ps)))
      as [|n|n]; try discriminate; intros E; injection E as _ <-;
    cbn [cache_file]; eauto.
Qed.

End Lookup.

(** C4. Whenever [delete] returns true, from whatever file and storage,
    the lookup of the same request that follows returns [None]: every
    prediction stored under the sample key was removed, however many there
    were. *)
Theorem delete_then_lookup `{Externals}
    (self : SqlBackedCache) (p : LmPrompt) (d d' : disk) :
  delete self p d = (Ok true, d') ->
  get_from_cache p (_lm self) (healthy (cache_file d'))
    = (Ok None, healthy (cache_file d')) /\
  matching 0 (prompt_to_sample_hash_text p (get_model_cache_key (_lm self)))
    (predictions_of (cache_file d')) = [].
Proof.
  intros Hd. apply delete_returns in Hd. destruct Hd as (tt & tp & rs & ->).
  split.
  - rewrite get_on_file. now rewrite matching_without_same.
  - cbn. apply matching_without_same.
Qed.

(** ** Reading *)

Lemma snd_bind_ret {S A B} (m : M S A) (g : A -> B) (s : S) :
  snd (bind m (fun a => ret (g a)) s) = snd (m s).
Proof. unfold bind, ret. destruct (m s) as [[a|e] s']; reflexivity. Qed.

Section Reading.
Context `{Externals}.

Lemma get_from_cache_keeps_file p lm db k :
  cache_file (snd (get_from_cache p lm
                     {| cache_file := Some db; io_fault := k |})) = Some db.
Proof.
  unfold get_from_cache.
  generalize (prompt_to_sample_hash_text p (get_model_cache_key lm)) as h.
  intros h. destruct db as [tt tp [rs|]]; destruct k as [[|k]|]; run_sqlite;
    try reflexivity;
    (destruct (filter (where_eq 0 (VText h)) rs) as [|r l]; [reflexivity|];
     destruct (len r =? 5); reflexivity).
Qed.

Lemma get_from_cache_creates_schema p lm k :
  stored (cache_file (snd (get_from_cache p lm
                             {| cache_file := None; io_fault := k |})))
  = ([], [], []).
Proof.
  destruct k as [[|[|[|[|[|k]]]]]|]; reflexivity.
Qed.

End Reading.

(** C10. The lookup, the membership test and the facade's [get] leave every
    row of the three tables as it was, on every file and whether or not a
    statement fails.  A file that exists is left exactly as it is; when there
    is no file yet, the tables are created and hold no row. *)
Theorem reads_do_not_write `{Externals}
    (self : SqlBackedCache) (p : LmPrompt) (d : disk) :
  stored (cache_file (snd (get_from_cache p (_lm self) d))) = stored (cache_file d) /\
  stored (cache_file (snd (__contains__ self p d))) = stored (cache_file d) /\
  stored (cache_file (snd (get self p d))) = stored (cache_file d) /\
  (cache_file d = None \/
   cache_file (snd (get_from_cache p (_lm self) d)) = cache_file d /\
   cache_file (snd (__contains__ self p d)) = cache_file d /\
   cache_file (snd (get self p d)) = cache_file d).
Proof.
  unfold __contains__, get. rewrite snd_bind_ret.
  destruct d as [[db|] k].
  - rewrite get_from_cache_keeps_file. cbn [cache_file].
    repeat split. right. repeat split.
  - rewrite get_from_cache_creates_schema. cbn [cache_file stored].
    repeat split. now left.
Qed.

(** ** The two upserts *)

Section Upserts.
Context `{Externals}.

Lemma create_from_prompt_text_raises p d :
  exists e,
    fst (create_from_prompt_text p d) = Raise e /\
    stored (cache_file (snd (create_from_prompt_text p d))) = stored (cache_file d).
Proof.
  unfold create_from_prompt_text.
  generalize (prompt_to_text_hash p) as t. intros t.
  destruct d as [[[[ts|] tp tr]|] [[|k]|]]; run_sqlite; cbn [stored table_rows];
    eexists; split; reflexivity.
Qed.

Lemma create_from_prompt_text_on_tables p ts ps rs :
  create_from_prompt_text p (healthy (Some (tables ts ps rs))) =
    (Raise ProgrammingError, healthy (Some (tables ts ps rs))).
Proof. reflexivity. Qed.

End Upserts.

(** C6 (what the code does). [create_from_prompt_sample_params] raises on
    every call and inserts no row: it starts with [create_from_prompt_text],
    which hands the two parameters of its INSERT to [execute_query] as the
    [fetchone] argument, so the statement runs with no parameter bound.  On
    a cache with its tables the error is [ProgrammingError]; the second call
    fails like the first, no key is returned, and no row for the sample key
    or the text key appears. *)
Theorem create_from_prompt_sample_params_raises `{Externals}
    (p : LmPrompt) (model_key : pystr) (d : disk) :
  (exists e, fst (create_from_prompt_sample_params p model_key d) = Raise e) /\
  stored (cache_file (snd (create_from_prompt_sample_params p model_key d)))
    = stored (cache_file d) /\
  forall ts ps rs,
    create_from_prompt_sample_params p model_key (healthy (Some (tables ts ps rs)))
      = (Raise ProgrammingError, healthy (Some (tables ts ps rs))).
Proof.
  assert (Hsame : create_from_prompt_sample_params p model_key d =
                  (match fst (create_from_prompt_text p d) with
                   | Ok _ => fst (create_from_prompt_sample_params p model_key d)
                   | Raise e => Raise e
                   end,
                   snd (create_from_prompt_text p d))).
  { destruct (create_from_prompt_text_raises p d) as (e & He & _).
    unfold create_from_prompt_sample_params, bind at 1.
    destruct (create_from_prompt_text p d) as [[a|e'] d']; [discriminate He|].
    reflexivity. }
  destruct (create_from_prompt_text_raises p d) as (e & He & Hs).
  rewrite Hsame, He. cbn [fst snd].
  split; [now exists e|]. split; [exact Hs|].
  intros ts ps rs. reflexivity.
Qed.

(** ** Transactions *)

Section Transactions.
Context `{Externals}.

(** [add_prediction_to_cache] is all or nothing: when a statement fails, the
    rows are those from before the call. *)
Lemma add_prediction_to_cache_atomic now x m f k :
  ready f ->
  let d' := snd (add_prediction_to_cache now x m (failing_after k f)) in
  stored (cache_file d') = stored f \/
  stored (cache_file d') =
    stored (cache_file (snd (add_prediction_to_cache now x m (healthy f)))).
Proof.
  intros Hready. unfold add_prediction_to_cache.
  generalize (prompt_to_sample_hash_text (prompt x) m) as h.
  generalize (prompt_to_text_hash (prompt x)) as t.
  generalize (prompt_to_only_sample_class_dict (prompt x) m) as d.
  intros d t h.
  destruct Hready as [-> | (ts & ps & rs & ->)].
  - destruct k as [|[|[|[|[|[|[|[|k]]]]]]]]; run_sqlite;
      cbn [stored table_rows CacheLmPromptText CacheLmPromptSampleParams
           CacheLmPrediction existsb app]; auto.
  - destruct k as [|[|[|[|k]]]]; run_sqlite;
      destruct (existsb (where_eq 0 (VText t)) ts);
      destruct (existsb (where_eq 1 (VText h)) ps);
      cbn [stored table_rows CacheLmPromptText CacheLmPromptSampleParams
           CacheLmPrediction]; auto.
Qed.

(** [delete] commits its first two statements before it turns to the text:
    a failure of the third statement leaves the predictions and the sample
    parameters deleted and the text in place. *)
Lemma delete_commits_before_text_cleanup self p ts ps rs :
  let h := prompt_to_sample_hash_text p (get_model_cache_key (_lm self)) in
  delete self p (failing_after 2 (Some (tables ts ps rs))) =
    (Raise OperationalError,
     healthy (Some (tables ts (without 1 h ps) (without 0 h rs)))).
Proof. reflexivity. Qed.

End Transactions.

Section TransactionsOnDemo.
#[local] Existing Instance Demo.python.

(** C2 (what the code does). [add_prediction_to_cache] runs its three
    inserts in one transaction ([add_prediction_to_cache_atomic]), but
    [delete] does not: with one prediction recorded for "Once upon a" and a
    storage failure at the third statement of [delete], the call raises and
    the file keeps a state that is neither the one before the call nor the
    one after a complete call: the prediction and its sample parameters are
    gone, the text row is still there. *)
Theorem delete_is_not_atomic :
  let before := cache_file Demo.one_prediction in
  let failed := delete Demo.facade Demo.once_upon_a (failing_after 2 before) in
  let complete := delete Demo.facade Demo.once_upon_a (healthy before) in
  stored before =
    ([text_row Demo.once_upon_a],
     [params_row Demo.once_upon_a (lit "test-model")],
     [prediction_row Demo.noon Demo.time_prediction (lit "test-model")]) /\
  fst failed = Raise OperationalError /\
  stored (cache_file (snd failed)) = ([text_row Demo.once_upon_a], [], []) /\
  fst complete = Ok true /\
  stored (cache_file (snd complete)) = ([], [], []).
Proof. vm_compute. repeat split. Qed.

End TransactionsOnDemo.

(** ** The tables between calls *)

Lemma has_key_upsert i k k0 r t :
  col i r = VText k0 ->
  has_key i k (upsert i r t) = has_key i k t || pystr_eqb k0 k.
Proof.
  intros Hr. unfold upsert. rewrite Hr. fold (has_key i k0 t).
  destruct (has_key i k0 t) eqn:E.
  - destruct (pystr_eqb k0 k) eqn:Ek.
    + apply pystr_eqb_eq in Ek. subst k. rewrite E. reflexivity.
    + now rewrite orb_false_r.
  - rewrite has_key_app. f_equal. unfold has_key. cbn [existsb].
    rewrite orb_false_r. unfold where_eq. now rewrite Hr.
Qed.

Lemma has_key_upsert_mono i j k r t :
  has_key j k t = true -> has_key j k (upsert i r t) = true.
Proof.
  intros E. unfold upsert.
  destruct (existsb (where_eq i (col i r)) t); [assumption|].
  rewrite has_key_app, E. reflexivity.
Qed.

Lemma in_upsert i r r' t : In r' (upsert i r t) -> In r' t \/ r' = r.
Proof.
  unfold upsert. destruct (existsb (where_eq i (col i r)) t); [now left|].
  intros Hin. apply in_app_or in Hin. destruct Hin as [Hin | [-> | []]]; auto.
Qed.

Lemma in_without i k r t :
  In r (without i k t) <-> In r t /\ where_eq i (VText k) r = false.
Proof.
  unfold without. rewrite filter_In. now rewrite negb_true_iff.
Qed.

Section Invariant.
Context `{Externals}.

Lemma consistent_empty : consistent [] [] [].
Proof. split; [reflexivity | constructor | constructor]. Qed.

Lemma consistent_add now x m ts ps rs :
  consistent ts ps rs ->
  consistent (upsert 0 (text_row (prompt x)) ts)
             (upsert 1 (params_row (prompt x) m) ps)
             (rs ++ [prediction_row now x m]).
Proof.
  intros [J P K].
  set (h := prompt_to_sample_hash_text (prompt x) m).
  set (t := prompt_to_text_hash (prompt x)).
  assert (Hprow1 : col 1 (params_row (prompt x) m) = VText h) by reflexivity.
  assert (Hprow0 : col 0 (params_row (prompt x) m) = VText t) by reflexivity.
  assert (Hreferenced : has_key 0 t (upsert 1 (params_row (prompt x) m) ps) = true).
  { unfold upsert. rewrite Hprow1. fold (has_key 1 h ps).
    destruct (has_key 1 h ps) eqn:E.
    - apply has_key_true in E. destruct E as (r & Hin & Hr).
      rewrite Forall_forall in P. destruct (P r Hin) as (h' & H1 & H0).
      apply has_key_true. exists r. split; [assumption|].
      rewrite H0. rewrite Hr in H1. injection H1 as <-.
      unfold h, t. now rewrite firstn_32_sample_hash.
    - rewrite has_key_app. apply orb_true_iff. right.
      apply has_key_true. exists (params_row (prompt x) m).
      split; [now left | assumption]. }
  split.
  - intros k. rewrite (has_key_upsert 1 k h) by assumption.
    rewrite has_key_app, J. f_equal.
    unfold has_key. cbn [existsb]. now rewrite orb_false_r.
  - rewrite Forall_forall in *. intros r Hin.
    apply in_upsert in Hin. destruct Hin as [Hin | ->]; [now apply P|].
    exists h. split; [assumption|]. rewrite Hprow0.
    unfold h, t. now rewrite firstn_32_sample_hash.
  - rewrite Forall_forall in *. intros r Hin.
    apply in_upsert in Hin. destruct Hin as [Hin | ->].
    + destruct (K r Hin) as (t0 & H0 & Href). exists t0.
      split; [assumption|]. now apply has_key_upsert_mono.
    + exists t. split; [reflexivity | assumption].
Qed.

Lemma consistent_delete p m ts ps rs :
  let h := prompt_to_sample_hash_text p m in
  let t := prompt_to_text_hash p in
  consistent ts ps rs ->
  consistent (if len (matching 0 t (without 1 h ps)) =? 0
              then without 0 t ts else ts)
             (without 1 h ps) (without 0 h rs).
Proof.
  intros h t [J P K]. rewrite matching_zero. split.
  - intros k. destruct (list_eq_dec ascii_dec k h) as [-> | Hn].
    + now rewrite !has_key_without_same.
    + now rewrite !has_key_without_other by assumption.
  - rewrite Forall_forall in *. intros r Hin.
    apply in_without in Hin. now apply P.
  - rewrite Forall_forall in *.
    assert (Hkeep : forall r, In r ts ->
              exists t0, col 0 r = VText t0 /\
                (has_key 0 t0 (without 1 h ps) = true \/ t0 = t)).
    { intros r Hin. destruct (K r Hin) as (t0 & H0 & Href).
      exists t0. split; [assumption|].
      apply has_key_true in Href. destruct Href as (r' & Hin' & Hr').
      destruct (where_eq 1 (VText h) r') eqn:E.
      - right. apply where_eq_text in E.
        destruct (P r' Hin') as (h' & H1 & H0').
        rewrite E in H1. apply VText_inj in H1. subst h'.
        rewrite H0' in Hr'. apply VText_inj in Hr'. subst t0.
        unfold h, t. now rewrite firstn_32_sample_hash.
      - left. apply has_key_true. exists r'. split; [|assumption].
        apply in_without. now split. }
    destruct (has_key 0 t (without 1 h ps)) eqn:Et; cbn [negb].
    + intros r Hin. destruct (Hkeep r Hin) as (t0 & H0 & [Href | ->]);
        exists t0 + exists t; (split; [assumption|]); assumption.
    + intros r Hin. apply in_without in Hin. destruct Hin as [Hin Hmiss].
      destruct (Hkeep r Hin) as (t0 & H0 & [Href | ->]).
      * exists t0. now split.
      * apply where_eq_text in H0. congruence.
Qed.

End Invariant.

Section Reachability.
Context `{Externals}.

Lemma perform_on_no_file c :
  sound (cache_file (perform c (healthy None))).
Proof.
  destruct c; cbn [perform].
  - right; right. exists [], [], []. split; [reflexivity | apply consistent_empty].
  - right; left. reflexivity.
  - right; left. reflexivity.
  - rewrite add_on_no_file. right; right. eexists _, _, _.
    split; [reflexivity|].
    apply (consistent_add now x model_key [] [] []), consistent_empty.
  - right; right. exists [], [], []. split; [reflexivity | apply consistent_empty].
  - right; right. exists [], [], []. split; [reflexivity | apply consistent_empty].
  - right; left. reflexivity.
Qed.

Lemma perform_on_no_tables c :
  cache_file (perform c (healthy (Some empty_database))) = Some empty_database.
Proof. destruct c; reflexivity. Qed.

Lemma perform_on_tables c ts ps rs :
  consistent ts ps rs ->
  exists ts' ps' rs',
    cache_file (perform c (healthy (Some (tables ts ps rs))))
      = Some (tables ts' ps' rs') /\
    consistent ts' ps' rs'.
Proof.
  intros Hc. destruct c; cbn [perform].
  - exists ts, ps, rs. now split.
  - exists ts, ps, rs. now split.
  - exists ts, ps, rs. now split.
  - rewrite add_on_tables. eexists _, _, _. split; [reflexivity|].
    now apply consistent_add.
  - rewrite get_on_tables. exists ts, ps, rs. now split.
  - unfold __contains__. rewrite snd_bind_ret, get_on_tables.
    exists ts, ps, rs. now split.
  - rewrite delete_on_tables. eexists _, _, _. split; [reflexivity|].
    now apply consistent_delete.
Qed.

(** Every file that calls on healthy storage produce is sound. *)
Lemma reachable_sound f : reachable f -> sound f.
Proof.
  induction 1 as [|f c Hr IH].
  - now left.
  - destruct IH as [-> | [-> | (ts & ps & rs & -> & Hc)]].
    + apply perform_on_no_file.
    + right; left. apply perform_on_no_tables.
    + right; right.
      destruct (perform_on_tables c ts ps rs Hc) as (ts' & ps' & rs' & E & Hc').
      exists ts', ps', rs'. now split.
Qed.

Lemma reachable_tables_consistent ts ps rs :
  reachable (Some (tables ts ps rs)) -> consistent ts ps rs.
Proof.
  intros Hr. apply reachable_sound in Hr.
  destruct Hr as [E | [E | (ts' & ps' & rs' & E & Hc)]]; try discriminate E.
  now injection E as -> -> ->.
Qed.

End Reachability.

(** ** Deleting *)

(** C3. On a file produced by the cache's own calls on healthy storage,
    [delete] returns true exactly when it removed at least one row of
    CacheLmPrediction; and when no prediction is stored under the sample key
    of the request, it returns false and leaves the three tables as they
    were.  (The value returned is the row count of the DELETE on
    CacheLmPromptSampleParams; on these files that table holds a sample key
    exactly when a prediction is stored under it.) *)
Theorem delete_reports_removed_predictions `{Externals}
    (self : SqlBackedCache) (p : LmPrompt) (ts ps rs : table) :
  let h := prompt_to_sample_hash_text p (get_model_cache_key (_lm self)) in
  reachable (Some (tables ts ps rs)) ->
  exists b ts' ps' rs',
    delete self p (healthy (Some (tables ts ps rs)))
      = (Ok b, healthy (Some (tables ts' ps' rs'))) /\
    rs' = without 0 h rs /\
    (b = true <-> (List.length rs' < List.length rs)%nat) /\
    (has_key 0 h rs = false ->
     b = false /\ ts' = ts /\ ps' = ps /\ rs' = rs).
Proof.
  intros h Hr. apply reachable_tables_consistent in Hr. destruct Hr as [J P K].
  eexists _, _, _, _. split; [apply delete_on_tables|]. fold h.
  split; [reflexivity|].
  rewrite matching_positive, matching_zero, J.
  split.
  - pose proof (length_without 0 h rs) as Hlen.
    pose proof (matching_positive 0 h rs) as Hpos.
    destruct (has_key 0 h rs).
    + apply Z.gtb_lt in Hpos. unfold len in Hpos. split; [lia | reflexivity].
    + split; [discriminate|]. intros Hlt.
      destruct (matching 0 h rs); [cbn in Hlen; lia | discriminate Hpos].
  - intros Hnone. split; [assumption|].
    assert (Hps : without 1 h ps = ps) by (apply without_absent; now rewrite J).
    rewrite Hps. repeat split.
    + destruct (has_key 0 (prompt_to_text_hash p) ps) eqn:Et; [reflexivity|].
      cbn [negb]. apply without_absent.
      destruct (has_key 0 (prompt_to_text_hash p) ts) eqn:Ets; [|reflexivity].
      apply has_key_true in Ets. destruct Ets as (r & Hin & Hrow).
      rewrite Forall_forall in K. destruct (K r Hin) as (t0 & H0 & Href).
      rewrite Hrow in H0. injection H0 as <-. congruence.
    + now apply without_absent.
Qed.

Section DeleteOnDemo.
#[local] Existing Instance Demo.python.

Lemma delete_reports_removed_predictions_witness :
  exists b ts' ps' rs',
    delete Demo.facade Demo.once_upon_a
      (healthy (Some (tables
         [text_row Demo.once_upon_a]
         [params_row Demo.once_upon_a (lit "test-model")]
         [prediction_row Demo.noon Demo.time_prediction (lit "test-model")])))
      = (Ok b, healthy (Some (tables ts' ps' rs'))) /\
    (b = true <-> (List.length rs' < 1)%nat).
Proof.
  destruct (delete_reports_removed_predictions Demo.facade Demo.once_upon_a
              [text_row Demo.once_upon_a]
              [params_row Demo.once_upon_a (lit "test-model")]
              [prediction_row Demo.noon Demo.time_prediction (lit "test-model")])
    as (b & ts' & ps' & rs' & Hd & _ & Hb & _).
  - exact (reachable_call None
             (Call_add_prediction_to_cache Demo.noon Demo.time_prediction
                (lit "test-model"))
             reachable_fresh).
  - exists b, ts', ps', rs'. split; [exact Hd | exact Hb].
Defined.

Lemma delete_then_lookup_witness :
  delete Demo.facade Demo.once_upon_a Demo.two_predictions
    = (Ok true, healthy (Some (tables [] [] []))) /\
  List.length (predictions_of (cache_file Demo.two_predictions)) = 2%nat /\
  get_from_cache Demo.once_upon_a Demo.test_model (healthy (Some (tables [] [] [])))
    = (Ok None, healthy (Some (tables [] [] []))).
Proof.
  assert (Hd : delete Demo.facade Demo.once_upon_a Demo.two_predictions
               = (Ok true, healthy (Some (tables [] [] []))))
    by (vm_compute; reflexivity).
  split; [exact Hd|]. split; [reflexivity|].
  exact (proj1 (delete_then_lookup Demo.facade Demo.once_upon_a
                  Demo.two_predictions
                  (healthy (Some (tables [] [] []))) Hd)).
Defined.

(** On a file that the cache's calls do not produce, with a row of sample
    parameters and no prediction under its key, [delete] returns true and
    removes no prediction: the value it returns counts the rows of
    CacheLmPromptSampleParams. *)
Remark delete_counts_sample_params :
  delete Demo.facade Demo.once_upon_a
    (healthy (Some (tables [] [params_row Demo.once_upon_a (lit "test-model")] [])))
  = (Ok true, healthy (Some (tables [] [] []))).
Proof. vm_compute. reflexivity. Qed.

End DeleteOnDemo.

(** ** Orphan cleanup *)

Section Cleanup.
Context `{Externals}.

Lemma delete_on_tables_keys self p ts ps rs :
  let h := prompt_to_sample_hash_text p (get_model_cache_key (_lm self)) in
  let t := prompt_to_text_hash p in
  delete self p (healthy (Some (tables ts ps rs))) =
    (Ok (has_key 1 h ps),
     healthy (Some (tables
                      (if has_key 0 t (without 1 h ps) then ts else without 0 t ts)
                      (without 1 h ps)
                      (without 0 h rs)))).
Proof.
  intros h t. rewrite delete_on_tables. fold h t.
  rewrite matching_positive, matching_zero.
  now destruct (has_key 0 t (without 1 h ps)).
Qed.

Lemma add_on_no_file_as_empty now x m :
  add_prediction_to_cache now x m (healthy None) =
  add_prediction_to_cache now x m (healthy (Some (tables [] [] []))).
Proof. now rewrite add_on_no_file, add_on_tables. Qed.

(** Two rows of sample parameters on one text: deleting the first leaves the
    text referenced, deleting the second as well leaves it unreferenced. *)
Lemma two_references t ha hb ps :
  Forall (fun r => exists h, col 1 r = VText h /\ col 0 r = VText (firstn 32 h)) ps ->
  firstn 32 hb = t ->
  ha <> hb ->
  has_key 1 hb ps = true ->
  referenced_only_by t ha hb ps ->
  has_key 1 hb (without 1 ha ps) = true /\
  has_key 0 t (without 1 ha ps) = true /\
  has_key 0 t (without 1 hb (without 1 ha ps)) = false.
Proof.
  intros P Hb Hn Hin Honly.
  assert (Hkept : has_key 1 hb (without 1 ha ps) = true)
    by (rewrite has_key_without_other; [assumption | congruence]).
  split; [assumption|]. split.
  - apply has_key_true in Hkept. destruct Hkept as (r & Hr & H1).
    apply has_key_true. exists r. split; [assumption|].
    apply in_without in Hr. destruct Hr as [Hr _].
    rewrite Forall_forall in P. destruct (P r Hr) as (h & H1' & H0).
    rewrite H1 in H1'. injection H1' as <-. now rewrite H0, Hb.
  - apply has_key_false. intros r Hr.
    apply in_without in Hr. destruct Hr as [Hr Hnb].
    apply in_without in Hr. destruct Hr as [Hr Hna].
    destruct (where_eq 0 (VText t) r) eqn:E; [|reflexivity].
    apply where_eq_text in E.
    destruct (Honly r Hr E) as [E1 | E1]; apply where_eq_text in E1; congruence.
Qed.

Lemma referenced_only_by_swap t h1 h2 ps :
  referenced_only_by t h1 h2 ps -> referenced_only_by t h2 h1 ps.
Proof. intros Ho r Hr E. destruct (Ho r Hr E); auto. Qed.

Lemma referenced_only_by_upsert t h1 h2 r ps :
  col 1 r = VText h1 \/ col 1 r = VText h2 ->
  referenced_only_by t h1 h2 ps ->
  referenced_only_by t h1 h2 (upsert 1 r ps).
Proof.
  intros Hr Ho r' Hin E. apply in_upsert in Hin.
  destruct Hin as [Hin | ->]; [now apply Ho | assumption].
Qed.

(** The two deletions, on tables that hold both requests. *)
Lemma delete_both self pa pb ts ps rs :
  let m := get_model_cache_key (_lm self) in
  let t := prompt_to_text_hash pa in
  let ha := prompt_to_sample_hash_text pa m in
  let hb := prompt_to_sample_hash_text pb m in
  prompt_to_text_hash pb = t ->
  ha <> hb ->
  consistent ts ps rs ->
  has_key 1 ha ps = true ->
  has_key 1 hb ps = true ->
  has_key 0 t ts = true ->
  referenced_only_by t ha hb ps ->
  exists d d',
    delete self pa (healthy (Some (tables ts ps rs))) = (Ok true, d) /\
    has_key 0 t (texts_of (cache_file d)) = true /\
    delete self pb d = (Ok true, d') /\
    has_key 0 t (texts_of (cache_file d')) = false.
Proof.
  intros m t ha hb Ht Hn [J P K] Ha Hb Hts Honly.
  assert (Hpre : firstn 32 hb = t)
    by (unfold hb; now rewrite firstn_32_sample_hash).
  destruct (two_references t ha hb ps P Hpre Hn Hb Honly) as (Hkept & Href & Hgone).
  eexists. eexists.
  split; [rewrite delete_on_tables_keys; fold m ha t; rewrite Ha; reflexivity|].
  rewrite Href. split; [exact Hts|].
  split; [rewrite delete_on_tables_keys; fold m hb; rewrite Ht, Hkept; reflexivity|].
  rewrite Hgone. cbn. apply has_key_without_same.
Qed.

End Cleanup.

(** C5. Two requests with the same prompt text and different sample keys are
    recorded on a file the cache produced, in which no other request
    references the text.  Then deleting either one leaves the row of
    CacheLmPromptText for the text in place, and deleting the other one as
    well removes it. *)
Theorem orphan_cleanup `{Externals}
    (now1 now2 : pystr) (x1 x2 : LmPrediction) (self : SqlBackedCache)
    (f : option database) :
  let m := get_model_cache_key (_lm self) in
  let p1 := prompt x1 in
  let p2 := prompt x2 in
  let t := prompt_to_text_hash p1 in
  let h1 := prompt_to_sample_hash_text p1 m in
  let h2 := prompt_to_sample_hash_text p2 m in
  get_text_as_string_default_form p1 = get_text_as_string_default_form p2 ->
  h1 <> h2 ->
  reachable f ->
  ready f ->
  referenced_only_by t h1 h2 (params_of f) ->
  exists d1 d2,
    add now1 self x1 (healthy f) = (Ok tt, d1) /\
    add now2 self x2 d1 = (Ok tt, d2) /\
    has_key 0 t (texts_of (cache_file d2)) = true /\
    (exists d3 d4,
       delete self p1 d2 = (Ok true, d3) /\
       has_key 0 t (texts_of (cache_file d3)) = true /\
       delete self p2 d3 = (Ok true, d4) /\
       has_key 0 t (texts_of (cache_file d4)) = false) /\
    (exists d3 d4,
       delete self p2 d2 = (Ok true, d3) /\
       has_key 0 t (texts_of (cache_file d3)) = true /\
       delete self p1 d3 = (Ok true, d4) /\
       has_key 0 t (texts_of (cache_file d4)) = false).
Proof.
  intros m p1 p2 t h1 h2 Htext Hn Hreach Hready Honly.
  assert (Ht : prompt_to_text_hash p2 = t)
    by (unfold t, prompt_to_text_hash; now rewrite Htext).
  assert (Hstart : exists ts ps rs,
            add now1 self x1 (healthy f) =
              add now1 self x1 (healthy (Some (tables ts ps rs))) /\
            consistent ts ps rs /\ referenced_only_by t h1 h2 ps).
  { destruct Hready as [-> | (ts & ps & rs & ->)].
    - exists [], [], []. split; [apply add_on_no_file_as_empty|].
      split; [apply consistent_empty | exact Honly].
    - exists ts, ps, rs. split; [reflexivity|].
      split; [now apply reachable_tables_consistent | exact Honly]. }
  destruct Hstart as (ts & ps & rs & -> & Hc & Ho).
  unfold add. fold m. rewrite add_on_tables.
  set (ts2 := upsert 0 (text_row (prompt x2)) (upsert 0 (text_row (prompt x1)) ts)).
  set (ps2 := upsert 1 (params_row (prompt x2) m) (upsert 1 (params_row (prompt x1) m) ps)).
  set (rs2 := (rs ++ [prediction_row now1 x1 m]) ++ [prediction_row now2 x2 m]).
  assert (Hc2 : consistent ts2 ps2 rs2)
    by (apply consistent_add, consistent_add, Hc).
  assert (Hk1 : has_key 1 h1 ps2 = true).
  { unfold ps2. rewrite (has_key_upsert 1 h1 h2) by reflexivity.
    rewrite (has_key_upsert 1 h1 h1) by reflexivity.
    now rewrite pystr_eqb_refl, orb_true_r. }
  assert (Hk2 : has_key 1 h2 ps2 = true).
  { unfold ps2. rewrite (has_key_upsert 1 h2 h2) by reflexivity.
    now rewrite pystr_eqb_refl, orb_true_r. }
  assert (Hts2 : has_key 0 t ts2 = true).
  { unfold ts2. apply has_key_upsert_mono.
    rewrite (has_key_upsert 0 t t) by reflexivity.
    now rewrite pystr_eqb_refl, orb_true_r. }
  assert (Ho2 : referenced_only_by t h1 h2 ps2).
  { unfold ps2. apply referenced_only_by_upsert; [now right|].
    apply referenced_only_by_upsert; [now left | exact Ho]. }
  eexists. eexists. split; [reflexivity|].
  split; [apply add_on_tables|]. fold ts2 ps2 rs2.
  split; [exact Hts2|]. split.
  - apply (delete_both self p1 p2 ts2 ps2 rs2); try assumption.
  - fold m t in Ht.
    assert (Ht1 : prompt_to_text_hash p1 = prompt_to_text_hash p2) by now rewrite Ht.
    pose proof (delete_both self p2 p1 ts2 ps2 rs2) as Hd. cbv zeta in Hd.
    fold m h1 h2 in Hd. rewrite Ht in Hd.
    apply Hd; try assumption.
    + reflexivity.
    + intros E. apply Hn. now symmetry.
    + now apply referenced_only_by_swap.
Qed.

Section CleanupOnDemo.
#[local] Existing Instance Demo.python.

Lemma orphan_cleanup_witness :
  let t := prompt_to_text_hash Demo.once_upon_a in
  exists d2 d3 d4,
    add Demo.noon Demo.facade Demo.time_prediction_5 Demo.one_prediction
      = (Ok tt, d2) /\
    delete Demo.facade Demo.once_upon_a d2 = (Ok true, d3) /\
    has_key 0 t (texts_of (cache_file d3)) = true /\
    delete Demo.facade Demo.once_upon_a_5 d3 = (Ok true, d4) /\
    has_key 0 t (texts_of (cache_file d4)) = false.
Proof.
  intros t.
  destruct (orphan_cleanup Demo.noon Demo.noon Demo.time_prediction
              Demo.time_prediction_5 Demo.facade None)
    as (d1 & d2 & Hadd1 & Hadd2 & _ & (d3 & d4 & Hd1 & Hkept & Hd2 & Hgone) & _).
  - reflexivity.
  - intros E. vm_compute in E. discriminate E.
  - exact reachable_fresh.
  - left. reflexivity.
  - intros r [].
  - exists d2, d3, d4.
    assert (E1 : d1 = Demo.one_prediction).
    { unfold Demo.one_prediction. now rewrite Hadd1. }
    rewrite <- E1. repeat split; assumption.
Defined.

End CleanupOnDemo.

(* ===================================================================== *)
(** * Further properties *)
(* ===================================================================== *)

(** ** execute_query *)

Lemma run_sql_read_only q args db db' n rs :
  is_dml q = false -> is_ddl q = false ->
  run_sql q args db = Ok (db', n, rs) -> db' = db.
Proof.
  intros Hdml Hddl. destruct db as [tt tp tr].
  destruct q; try discriminate Hdml; try discriminate Hddl; cbn.
  - intros E. now injection E as <- _ _.
  - destruct tr as [t|]; [|discriminate].
    destruct (List.length args =? 1)%nat; [|discriminate].
    cbn. intros E. now injection E as <- _ _.
  - destruct tp as [t|]; [|discriminate].
    destruct (List.length args =? 1)%nat; [|discriminate].
    cbn. intros E. now injection E as <- _ _.
Qed.

Lemma execute_untouched db0 q args c r c' :
  untouched db0 c ->
  in_transaction c = true \/ is_ddl q = false ->
  execute q args c = (r, c') ->
  untouched db0 c' /\ (in_transaction c = true -> in_transaction c' = true).
Proof.
  intros [Hd Hc] Hq. destruct c as [du cu tx rc un fa]. cbn in Hd, Hc, Hq.
  unfold execute. cbn [failing durable current in_transaction rowcount unread].
  assert (Hsame : forall fa', untouched db0
            {| durable := du; current := cu; in_transaction := tx;
               rowcount := rc; unread := un; failing := fa' |})
    by (intros fa'; split; assumption).
  destruct fa as [[|k]|].
  - intros E. injection E as <- <-. split; [apply Hsame | auto].
  - destruct (run_sql q args cu) as [[[db n] rs]|e] eqn:R.
    + destruct tx.
      * destruct q; intros E; injection E as <- <-;
          (split; [split; [assumption | discriminate] | reflexivity]).
      * destruct Hq as [Hq | Hq]; [discriminate Hq|].
        destruct (is_dml q) eqn:Hdml.
        -- destruct q; try discriminate Hdml; intros E; injection E as <- <-;
             (split; [split; [assumption | discriminate] | discriminate]).
        -- pose proof (run_sql_read_only q args cu db n rs Hdml Hq R) as ->.
           rewrite (Hc eq_refl) in *.
           destruct q; try discriminate Hdml; try discriminate Hq;
             intros E; injection E as <- <-;
             (split; [split; [cbn; try assumption; reflexivity | reflexivity || discriminate]
                     | discriminate]).
    + destruct q, tx; intros E; injection E as <- <-;
        (split; [apply Hsame | auto]).
  - destruct (run_sql q args cu) as [[[db n] rs]|e] eqn:R.
    + destruct tx.
      * destruct q; intros E; injection E as <- <-;
          (split; [split; [assumption | discriminate] | reflexivity]).
      * destruct Hq as [Hq | Hq]; [discriminate Hq|].
        destruct (is_dml q) eqn:Hdml.
        -- destruct q; try discriminate Hdml; intros E; injection E as <- <-;
             (split; [split; [assumption | discriminate] | discriminate]).
        -- pose proof (run_sql_read_only q args cu db n rs Hdml Hq R) as ->.
           rewrite (Hc eq_refl) in *.
           destruct q; try discriminate Hdml; try discriminate Hq;
             intros E; injection E as <- <-;
             (split; [split; [cbn; try assumption; reflexivity | reflexivity || discriminate]
                     | discriminate]).
    + destruct q, tx; intros E; injection E as <- <-;
        (split; [apply Hsame | auto]).
Qed.

Lemma execute_statement_untouched db0 s c r c' :
  untouched db0 c ->
  in_transaction c = true \/ is_ddl (statement_sql s) = false ->
  execute_statement s c = (r, c') ->
  untouched db0 c' /\ (in_transaction c = true -> in_transaction c' = true).
Proof. destruct s; apply execute_untouched. Qed.

Lemma execute_all_untouched db0 qs : forall c r c',
  untouched db0 c ->
  in_transaction c = true \/
    forallb (fun s => negb (is_ddl (statement_sql s))) qs = true ->
  execute_all qs c = (r, c') ->
  untouched db0 c'.
Proof.
  induction qs as [|s rest IH]; intros c r c' Hu Hq.
  - intros E. now injection E as _ <-.
  - cbn [execute_all]. unfold bind.
    destruct (execute_statement s c) as [[[]|e] c1] eqn:E1.
    + assert (Hs : in_transaction c = true \/ is_ddl (statement_sql s) = false).
      { destruct Hq as [Hq | Hq]; [now left | right].
        cbn in Hq. apply andb_true_iff in Hq. now apply negb_true_iff. }
      destruct (execute_statement_untouched db0 s c _ c1 Hu Hs E1) as [Hu1 Htx].
      apply IH; [exact Hu1|].
      destruct Hq as [Hq | Hq]; [left; auto | right].
      cbn in Hq. now apply andb_true_iff in Hq.
    + intros E. injection E as _ <-.
      assert (Hs : in_transaction c = true \/ is_ddl (statement_sql s) = false).
      { destruct Hq as [Hq | Hq]; [now left | right].
        cbn in Hq. apply andb_true_iff in Hq. now apply negb_true_iff. }
      now destruct (execute_statement_untouched db0 s c _ c1 Hu Hs E1).
Qed.

Lemma execute_list_untouched db0 qs c r c' :
  one_transaction (QList qs) = true ->
  untouched db0 c ->
  execute_all qs c = (r, c') ->
  untouched db0 c'.
Proof.
  intros Hone Hu.
  assert (Hcases : (exists rest, qs = Str BEGIN :: rest) \/
                   forallb (fun s => negb (is_ddl (statement_sql s))) qs = true).
  { destruct qs as [|[[]|[]] rest]; cbn in Hone |- *; eauto. }
  destruct Hcases as [[rest ->] | Hall].
  - cbn [execute_all]. unfold bind.
    destruct (execute_statement (Str BEGIN) c) as [[[]|e] c1] eqn:E1.
    + destruct (execute_statement_untouched db0 (Str BEGIN) c _ c1 Hu
                  (or_intror eq_refl) E1) as [Hu1 _].
      assert (Htx : in_transaction c1 = true).
      { revert E1. cbn [execute_statement]. unfold execute.
        destruct (failing c) as [[|k]|]; try discriminate;
          destruct (in_transaction c); try discriminate;
          cbn; intros E; now injection E as <-. }
      apply execute_all_untouched; [exact Hu1 | now left].
    + intros E. injection E as _ <-.
      now destruct (execute_statement_untouched db0 (Str BEGIN) c _ c1 Hu
                      (or_intror eq_refl) E1).
  - apply execute_all_untouched; [exact Hu | now right].
Qed.

Lemma connect_untouched d : untouched (opened (cache_file d)) (connect d).
Proof. split; reflexivity. Qed.

Lemma execute_raise_durable q args c e c' :
  execute q args c = (Raise e, c') -> durable c' = durable c.
Proof.
  unfold execute.
  destruct (failing c) as [[|k]|];
    try (intros E; now injection E as _ <-);
    (destruct (run_sql q args (current c)) as [[[db n] rs]|e'];
     destruct q, (in_transaction c); try discriminate;
     intros E; now injection E as _ <-).
Qed.

(** X1. [execute_query] applies a query entirely or not at all: when a
    single statement, a list that opens with BEGIN, or a list without
    CREATE TABLE raises, whatever the cause, the file holds what it held when
    the connection was opened. *)
Theorem execute_query_all_or_nothing
    (q : query) (fetch_one : bool) (d d' : disk) (e : exn) :
  one_transaction q = true ->
  execute_query q fetch_one d = (Raise e, d') ->
  cache_file d' = Some (opened (cache_file d)).
Proof.
  intros Hone. unfold execute_query, with_connection.
  set (run := match q with
              | QStr s => execute s []
              | QTuple s args => execute s args
              | QList qs => execute_all qs
              end).
  assert (Hrun : forall e1 c, run (connect d) = (Raise e1, c) ->
                              durable c = opened (cache_file d)).
  { intros e1 c. unfold run. destruct q as [s | s args | qs]; intros E.
    - now rewrite (execute_raise_durable _ _ _ _ _ E).
    - now rewrite (execute_raise_durable _ _ _ _ _ E).
    - now destruct (execute_list_untouched _ qs _ _ c Hone (connect_untouched d) E). }
  unfold bind at 1.
  destruct (run (connect d)) as [[[]|e1] c1] eqn:E1.
  - unfold bind, commit. destruct fetch_one; cbn.
    + destruct (unread c1); discriminate.
    + discriminate.
  - intros E. injection E as _ <-. cbn. f_equal. now apply (Hrun e1).
Qed.

Lemma execute_query_all_or_nothing_witness :
  let q := QList [Str BEGIN;
                  Tuple INSERT_OR_IGNORE_INTO_CacheLmPromptText
                    [VText (lit "key"); VText (lit "text")];
                  Str INSERT_INTO_CacheLmPrediction] in
  execute_query q false (healthy (Some (tables [] [] [])))
    = (Raise ProgrammingError, healthy (Some (tables [] [] []))) /\
  cache_file (healthy (Some (tables [] [] []))) = Some (tables [] [] []).
Proof.
  intros q.
  assert (E : execute_query q false (healthy (Some (tables [] [] [])))
              = (Raise ProgrammingError, healthy (Some (tables [] [] []))))
    by reflexivity.
  split; [exact E|].
  exact (execute_query_all_or_nothing q false _ _ _ eq_refl E).
Defined.

(** ** Storage failures *)

Section Failures.
Context `{Externals}.

(** X2. [add_prediction_to_cache] on a cache with its tables issues four
    statements.  When one of them meets a storage failure the call raises
    [OperationalError] and the file is as before; otherwise the call stores
    exactly what it stores on healthy storage. *)
Theorem add_prediction_to_cache_under_failure
    (now : pystr) (x : LmPrediction) (m : pystr) (ts ps rs : table) (k : nat) :
  add_prediction_to_cache now x m (failing_after k (Some (tables ts ps rs))) =
    if (k <? 4)%nat
    then (Raise OperationalError, healthy (Some (tables ts ps rs)))
    else (Ok tt,
          failing_after (k - 4)
            (cache_file (snd (add_prediction_to_cache now x m
                                (healthy (Some (tables ts ps rs))))))).
Proof.
  rewrite add_on_tables. unfold add_prediction_to_cache, upsert, text_row,
    params_row, prediction_row.
  generalize (prompt_to_sample_hash_text (prompt x) m) as h.
  generalize (prompt_to_text_hash (prompt x)) as t.
  generalize (prompt_to_only_sample_class_dict (prompt x) m) as d.
  intros d t h.
  destruct k as [|[|[|[|k]]]]; run_sqlite;
    destruct (existsb (where_eq 0 (VText t)) ts);
    destruct (existsb (where_eq 1 (VText h)) ps);
    cbn [Nat.ltb Nat.leb Nat.sub]; rewrite ?Nat.sub_0_r; reflexivity.
Qed.

(** X3. A storage failure inside [delete] leaves CacheLmPrediction and
    CacheLmPromptSampleParams in step: either both still hold the rows of
    the sample key or both have lost them; the text row is then either kept
    or removed. *)
Theorem delete_under_failure
    (self : SqlBackedCache) (p : LmPrompt) (ts ps rs : table) (k : nat) :
  let h := prompt_to_sample_hash_text p (get_model_cache_key (_lm self)) in
  let t := prompt_to_text_hash p in
  let f := cache_file (snd (delete self p (failing_after k (Some (tables ts ps rs))))) in
  (params_of f = ps /\ predictions_of f = rs /\ texts_of f = ts) \/
  (params_of f = without 1 h ps /\ predictions_of f = without 0 h rs /\
   (texts_of f = ts \/ texts_of f = without 0 t ts)).
Proof.
  unfold delete, without.
  generalize (prompt_to_sample_hash_text p (get_model_cache_key (_lm self))) as h.
  generalize (prompt_to_text_hash p) as t.
  intros t h.
  destruct k as [|[|[|[|k]]]]; run_sqlite;
    try (destruct (len (filter (where_eq 0 (VText t))
                     (filter (fun r => match where_eq 1 (VText h) r with
                                       | true => false | false => true end) ps)))
           as [|n|n]);
    cbn; auto.
Qed.

End Failures.

(** ** A file without tables *)

Section NoTables.
Context `{Externals}.

Lemma add_without_tables now x m :
  add_prediction_to_cache now x m (healthy (Some empty_database))
    = (Raise OperationalError, healthy (Some empty_database)).
Proof. reflexivity. Qed.

Lemma get_without_tables p lm :
  get_from_cache p lm (healthy (Some empty_database))
    = (Raise OperationalError, healthy (Some empty_database)).
Proof. reflexivity. Qed.

Lemma delete_without_tables self p :
  delete self p (healthy (Some empty_database))
    = (Raise OperationalError, healthy (Some empty_database)).
Proof. reflexivity. Qed.

(** X4. [create_tables] looks at the file only, not at the tables.  When a
    storage failure interrupts the creation of the tables, the call raises
    and leaves a file without tables; from then on [create_tables] returns
    without creating anything, and every [add_prediction_to_cache],
    [get_from_cache] and [delete] raises [OperationalError]. *)
Theorem failed_schema_creation_is_permanent (k : nat) :
  (k < 4)%nat ->
  let d := healthy (Some empty_database) in
  create_tables (failing_after k None) = (Raise OperationalError, d) /\
  create_tables d = (Ok tt, d) /\
  (forall now x m, add_prediction_to_cache now x m d = (Raise OperationalError, d)) /\
  (forall p lm, get_from_cache p lm d = (Raise OperationalError, d)) /\
  (forall self p, delete self p d = (Raise OperationalError, d)).
Proof.
  intros Hk d.
  split; [destruct k as [|[|[|[|k]]]]; try lia; reflexivity|].
  split; [reflexivity|].
  split; [apply add_without_tables|].
  split; [apply get_without_tables | apply delete_without_tables].
Qed.

(** X5. [delete] does not create the tables.  Called while there is no
    file, it raises [OperationalError] and leaves an empty file behind, and
    that file keeps [create_tables] from ever creating the tables: the
    lookup and the add that follow raise as well. *)
Theorem delete_before_any_table (self : SqlBackedCache) (p : LmPrompt) :
  let d := healthy (Some empty_database) in
  delete self p (healthy None) = (Raise OperationalError, d) /\
  (forall q lm, get_from_cache q lm d = (Raise OperationalError, d)) /\
  (forall now x m, add_prediction_to_cache now x m d = (Raise OperationalError, d)).
Proof.
  intros d. split; [reflexivity|].
  split; [apply get_without_tables | apply add_without_tables].
Qed.

End NoTables.

Section NoTablesOnDemo.
#[local] Existing Instance Demo.python.

Lemma failed_schema_creation_is_permanent_witness :
  create_tables (failing_after 2 None)
    = (Raise OperationalError, healthy (Some empty_database)) /\
  get_from_cache Demo.once_upon_a Demo.test_model (healthy (Some empty_database))
    = (Raise OperationalError, healthy (Some empty_database)).
Proof.
  assert (Hk : (2 < 4)%nat) by lia.
  pose proof (failed_schema_creation_is_permanent 2 Hk) as W.
  split; [apply W|]. apply W.
Defined.

End NoTablesOnDemo.

(** ** How the calls compose *)

Lemma matching_without_other i k k' t :
  k <> k' -> matching i k (without i k' t) = matching i k t.
Proof.
  intros Hn. unfold matching, without.
  induction t as [|r t IH]; [reflexivity|].
  cbn. destruct (where_eq i (VText k') r) eqn:E'; cbn.
  - rewrite (where_eq_other i k' k r E') by congruence. exact IH.
  - destruct (where_eq i (VText k) r); now rewrite IH.
Qed.

Lemma without_without i k t : without i k (without i k t) = without i k t.
Proof. apply without_absent, has_key_without_same. Qed.

Lemma matching_app_head i k t u :
  has_key i k t = true ->
  hd_error (matching i k (t ++ u)) = hd_error (matching i k t).
Proof.
  intros E. rewrite matching_app.
  destruct (matching i k t) eqn:Em; [|reflexivity].
  apply matching_nil_iff in Em. congruence.
Qed.

Section Composition.
Context `{Externals}.

(** What a lookup returns is decided by the first stored row under the key. *)
Lemma get_on_tables_head p lm ts ps rs rs' :
  hd_error (matching 0 (prompt_to_sample_hash_text p (get_model_cache_key lm)) rs)
  = hd_error (matching 0 (prompt_to_sample_hash_text p (get_model_cache_key lm)) rs') ->
  forall ts' ps',
  fst (get_from_cache p lm (healthy (Some (tables ts ps rs))))
  = fst (get_from_cache p lm (healthy (Some (tables ts' ps' rs')))).
Proof.
  intros Hhd ts' ps'. rewrite !get_on_tables. cbn [fst].
  destruct (matching 0 _ rs) as [|r l], (matching 0 _ rs') as [|r' l'];
    cbn in Hhd; try discriminate; [reflexivity|].
  now injection Hhd as ->.
Qed.

(** X6. The first prediction recorded under a sample key is the one every
    lookup returns: recording a prediction does not change the answer to a
    request that already has a prediction stored, nor to a request with
    another sample key. *)
Theorem add_keeps_earlier_answers
    (now : pystr) (x : LmPrediction) (m : pystr) (q : LmPrompt) (lm : LmPredictor)
    (ts ps rs : table) :
  let hq := prompt_to_sample_hash_text q (get_model_cache_key lm) in
  let hx := prompt_to_sample_hash_text (prompt x) m in
  has_key 0 hq rs = true \/ hq <> hx ->
  fst (get_from_cache q lm
         (snd (add_prediction_to_cache now x m (healthy (Some (tables ts ps rs))))))
  = fst (get_from_cache q lm (healthy (Some (tables ts ps rs)))).
Proof.
  intros hq hx Hq. rewrite add_on_tables. cbn [snd].
  apply get_on_tables_head. fold hq.
  destruct Hq as [Hq | Hq].
  - now apply matching_app_head.
  - rewrite matching_app. unfold matching at 2. cbn [filter].
    replace (where_eq 0 (VText hq) (prediction_row now x m)) with false.
    + now rewrite app_nil_r.
    + symmetry. apply pystr_eqb_neq. fold hx. congruence.
Qed.

(** X7. Deleting a request leaves the answers to the requests with other
    sample keys as they were. *)
Theorem delete_keeps_other_answers
    (self : SqlBackedCache) (p q : LmPrompt) (lm : LmPredictor) (ts ps rs : table) :
  prompt_to_sample_hash_text q (get_model_cache_key lm)
    <> prompt_to_sample_hash_text p (get_model_cache_key (_lm self)) ->
  fst (get_from_cache q lm
         (snd (delete self p (healthy (Some (tables ts ps rs))))))
  = fst (get_from_cache q lm (healthy (Some (tables ts ps rs)))).
Proof.
  intros Hn. rewrite delete_on_tables. cbn [snd].
  apply get_on_tables_head. now rewrite matching_without_other.
Qed.

(** X8. A second [delete] of the same request returns false and changes
    nothing, whatever the tables held. *)
Theorem delete_twice
    (self : SqlBackedCache) (p : LmPrompt) (ts ps rs : table) :
  exists b d,
    delete self p (healthy (Some (tables ts ps rs))) = (Ok b, d) /\
    delete self p d = (Ok false, d).
Proof.
  eexists. eexists. split; [apply delete_on_tables_keys|].
  rewrite delete_on_tables_keys.
  rewrite has_key_without_same, !without_without.
  destruct (has_key 0 (prompt_to_text_hash p)
              (without 1 (prompt_to_sample_hash_text p
                            (get_model_cache_key (_lm self))) ps));
    [reflexivity|].
  now rewrite without_without.
Qed.

End Composition.

Section CompositionOnDemo.
#[local] Existing Instance Demo.python.

Lemma add_keeps_earlier_answers_witness :
  let before :=
    healthy (Some (tables
      [text_row Demo.once_upon_a]
      [params_row Demo.once_upon_a (lit "test-model")]
      [prediction_row Demo.noon Demo.time_prediction (lit "test-model")])) in
  fst (get_from_cache Demo.once_upon_a Demo.test_model
         (snd (add_prediction_to_cache Demo.noon Demo.day_prediction
                 (lit "test-model") before)))
  = fst (get_from_cache Demo.once_upon_a Demo.test_model before).
Proof.
  intros before.
  apply (add_keeps_earlier_answers Demo.noon Demo.day_prediction (lit "test-model")
           Demo.once_upon_a Demo.test_model).
  left. unfold has_key. cbn [existsb]. apply orb_true_iff. left.
  apply where_eq_text. reflexivity.
Defined.

Lemma delete_keeps_other_answers_witness :
  fst (get_from_cache Demo.once_upon_a_5 Demo.test_model
         (snd (delete Demo.facade Demo.once_upon_a
                 (healthy (Some (tables [] [] [])))))) = Ok None.
Proof.
  rewrite (delete_keeps_other_answers Demo.facade Demo.once_upon_a
             Demo.once_upon_a_5 Demo.test_model [] [] []).
  - reflexivity.
  - intros E. vm_compute in E. discriminate E.
Defined.

End CompositionOnDemo.

(** ** Files the cache produces *)

Lemma without_app i k t u : without i k (t ++ u) = without i k t ++ without i k u.
Proof. apply filter_app. Qed.

Lemma without_hit i k r : col i r = VText k -> without i k [r] = [].
Proof.
  intros E. unfold without. cbn.
  now replace (where_eq i (VText k) r) with true by (symmetry; now apply where_eq_text).
Qed.

Lemma upsert_absent i k r t :
  col i r = VText k -> has_key i k t = false -> upsert i r t = t ++ [r].
Proof. intros E Hk. unfold upsert. rewrite E. fold (has_key i k t). now rewrite Hk. Qed.

Lemma Forall_upsert (P : row -> Prop) i r t :
  P r -> Forall P t -> Forall P (upsert i r t).
Proof.
  intros Hr Ht. unfold upsert.
  destruct (existsb (where_eq i (col i r)) t); [assumption|].
  apply Forall_app. split; [assumption | now constructor].
Qed.

Lemma Forall_without (P : row -> Prop) i k t :
  Forall P t -> Forall P (without i k t).
Proof.
  rewrite !Forall_forall. intros Ht r Hin. apply in_without in Hin. now apply Ht.
Qed.

Lemma unique_keys_upsert i k r t :
  col i r = VText k -> unique_keys i t -> unique_keys i (upsert i r t).
Proof.
  intros E Hu. unfold upsert. rewrite E. fold (has_key i k t).
  destruct (has_key i k t) eqn:Hk; [assumption|].
  unfold unique_keys in *. rewrite map_app. cbn [map].
  assert (Hnew : ~ In (col i r) (map (col i) t)).
  { rewrite E. intros Hin. apply in_map_iff in Hin. destruct Hin as (r' & E' & Hin).
    assert (has_key i k t = true) by (apply has_key_true; eauto).
    congruence. }
  clear Hk E. induction (map (col i) t) as [|v vs IH].
  - constructor; [intros [] | constructor].
  - inversion Hu as [|? ? Hv Hvs]; subst. cbn. constructor.
    + intros Hin. apply in_app_or in Hin. destruct Hin as [Hin | [<- | []]].
      * now apply Hv.
      * apply Hnew. now left.
    + apply IH; [assumption|]. intros Hin. apply Hnew. now right.
Qed.

Lemma unique_keys_without i j k t : unique_keys j t -> unique_keys j (without i k t).
Proof.
  unfold unique_keys, without. induction t as [|r t IH]; [trivial|].
  cbn. intros Hu. inversion Hu as [|? ? Hr Ht]; subst.
  destruct (where_eq i (VText k) r); cbn; [now apply IH|].
  constructor; [|now apply IH].
  intros Hin. apply Hr. apply in_map_iff in Hin. destruct Hin as (r' & E & Hin).
  apply in_map_iff. exists r'. split; [assumption|].
  apply filter_In in Hin. tauto.
Qed.

Lemma tables_eq ts ps rs ts' ps' rs' :
  Some (tables ts ps rs) = Some (tables ts' ps' rs') ->
  ts = ts' /\ ps = ps' /\ rs = rs'.
Proof. intros E. injection E. auto. Qed.

Section Produced.
Context `{Externals}.

Lemma perform_on_tables_forms c ts ps rs :
  let f := cache_file (perform c (healthy (Some (tables ts ps rs)))) in
  f = Some (tables ts ps rs) \/
  (exists now x m,
     f = Some (tables (upsert 0 (text_row (prompt x)) ts)
                      (upsert 1 (params_row (prompt x) m) ps)
                      (rs ++ [prediction_row now x m]))) \/
  (exists self p,
     f = Some (tables
                 (if has_key 0 (prompt_to_text_hash p)
                       (without 1 (prompt_to_sample_hash_text p
                                     (get_model_cache_key (_lm self))) ps)
                  then ts else without 0 (prompt_to_text_hash p) ts)
                 (without 1 (prompt_to_sample_hash_text p
                               (get_model_cache_key (_lm self))) ps)
                 (without 0 (prompt_to_sample_hash_text p
                               (get_model_cache_key (_lm self))) rs))).
Proof.
  destruct c; cbn [perform].
  - now left.
  - now left.
  - now left.
  - right; left. exists now, x, model_key. now rewrite add_on_tables.
  - left. now rewrite get_on_tables.
  - left. unfold __contains__. now rewrite snd_bind_ret, get_on_tables.
  - right; right. exists self, p. now rewrite delete_on_tables_keys.
Qed.

Lemma perform_on_no_file_forms c :
  let f := cache_file (perform c (healthy None)) in
  f = Some empty_database \/ f = Some (tables [] [] []) \/
  (exists now x m,
     f = Some (tables (upsert 0 (text_row (prompt x)) [])
                      (upsert 1 (params_row (prompt x) m) [])
                      ([] ++ [prediction_row now x m]))).
Proof.
  destruct c; cbn [perform].
  - right; left. reflexivity.
  - left. reflexivity.
  - left. reflexivity.
  - right; right. exists now, x, model_key. now rewrite add_on_no_file.
  - right; left. reflexivity.
  - right; left. reflexivity.
  - left. reflexivity.
Qed.

(** Induction over the files with tables that the calls produce. *)
Lemma reachable_tables_ind (I : table -> table -> table -> Prop) :
  I [] [] [] ->
  (forall now x m ts ps rs,
     I ts ps rs ->
     I (upsert 0 (text_row (prompt x)) ts) (upsert 1 (params_row (prompt x) m) ps)
       (rs ++ [prediction_row now x m])) ->
  (forall self p ts ps rs,
     I ts ps rs ->
     I (if has_key 0 (prompt_to_text_hash p)
             (without 1 (prompt_to_sample_hash_text p
                           (get_model_cache_key (_lm self))) ps)
        then ts else without 0 (prompt_to_text_hash p) ts)
       (without 1 (prompt_to_sample_hash_text p (get_model_cache_key (_lm self))) ps)
       (without 0 (prompt_to_sample_hash_text p (get_model_cache_key (_lm self))) rs)) ->
  forall ts ps rs, reachable (Some (tables ts ps rs)) -> I ts ps rs.
Proof.
  intros Hnil Hadd Hdel.
  assert (Hall : forall f, reachable f ->
            forall ts ps rs, f = Some (tables ts ps rs) -> I ts ps rs).
  { induction 1 as [|f c Hr IH]; [discriminate|].
    intros ts ps rs E.
    destruct (reachable_sound f Hr) as [-> | [-> | (ts0 & ps0 & rs0 & -> & _)]].
    - destruct (perform_on_no_file_forms c) as [E' | [E' | (now & x & m & E')]];
        rewrite E' in E; [discriminate E | |];
        apply tables_eq in E; destruct E as (<- & <- & <-);
        [exact Hnil | now apply Hadd].
    - rewrite perform_on_no_tables in E. discriminate E.
    - specialize (IH ts0 ps0 rs0 eq_refl).
      destruct (perform_on_tables_forms c ts0 ps0 rs0)
        as [E' | [(now & x & m & E') | (self & p & E')]];
        rewrite E' in E; apply tables_eq in E; destruct E as (<- & <- & <-);
        [exact IH | now apply Hadd | now apply Hdel]. }
  intros ts ps rs Hr. now apply (Hall _ Hr).
Qed.

Lemma reachable_well_formed ts ps rs :
  reachable (Some (tables ts ps rs)) ->
  schema_widths ts ps rs /\ unique_keys 0 ts /\ unique_keys 1 ps.
Proof.
  revert ts ps rs.
  apply (reachable_tables_ind
           (fun ts ps rs =>
              schema_widths ts ps rs /\ unique_keys 0 ts /\ unique_keys 1 ps)).
  - repeat split; constructor.
  - intros now x m ts0 ps0 rs0 ((Wt & Wp & Wr) & Ut & Up).
    repeat split.
    + now apply Forall_upsert.
    + now apply Forall_upsert.
    + apply Forall_app. split; [assumption | now constructor].
    + now apply (unique_keys_upsert 0 (prompt_to_text_hash (prompt x))).
    + now apply (unique_keys_upsert 1 (prompt_to_sample_hash_text (prompt x) m)).
  - intros self p ts0 ps0 rs0 ((Wt & Wp & Wr) & Ut & Up).
    repeat split.
    + destruct (has_key 0 _ _); [assumption | now apply Forall_without].
    + now apply Forall_without.
    + now apply Forall_without.
    + destruct (has_key 0 _ _); [assumption | now apply unique_keys_without].
    + now apply unique_keys_without.
Qed.

End Produced.

Lemma matching_unique i k t :
  unique_keys i t -> (List.length (matching i k t) <= 1)%nat.
Proof.
  unfold unique_keys, matching. induction t as [|r t IH]; [cbn; lia|].
  cbn. intros Hu. inversion Hu as [|? ? Hr Ht]; subst.
  destruct (where_eq i (VText k) r) eqn:E; [|now apply IH].
  apply where_eq_text in E.
  assert (Hnone : filter (where_eq i (VText k)) t = []).
  { apply matching_nil_iff. destruct (has_key i k t) eqn:Hk; [|reflexivity].
    apply has_key_true in Hk. destruct Hk as (r' & Hin & E').
    elim Hr. rewrite E, <- E'. now apply in_map. }
  rewrite Hnone. cbn. lia.
Qed.

(** X9. On every file the cache produces, however often requests were
    recorded and deleted, CacheLmPromptText holds at most one row for a text
    key and CacheLmPromptSampleParams at most one row for a sample key, and
    the rows of the three tables have 2, 13 and 5 columns. *)
Theorem one_row_per_key `{Externals} (ts ps rs : table) :
  reachable (Some (tables ts ps rs)) ->
  (forall k, (List.length (matching 0 k ts) <= 1)%nat) /\
  (forall k, (List.length (matching 1 k ps) <= 1)%nat) /\
  schema_widths ts ps rs.
Proof.
  intros Hr. destruct (reachable_well_formed ts ps rs Hr) as (W & Ut & Up).
  split; [intros k; now apply matching_unique|].
  split; [intros k; now apply matching_unique | exact W].
Qed.

(** X10. On every file the cache produces, a lookup does not raise, and the
    membership test returns true exactly when a prediction is stored under
    the sample key of the request; neither changes the file. *)
Theorem contains_iff_stored `{Externals}
    (self : SqlBackedCache) (p : LmPrompt) (ts ps rs : table) :
  let h := prompt_to_sample_hash_text p (get_model_cache_key (_lm self)) in
  let d := healthy (Some (tables ts ps rs)) in
  reachable (Some (tables ts ps rs)) ->
  __contains__ self p d = (Ok (has_key 0 h rs), d) /\
  exists y, get self p d = (Ok y, d) /\ is_not_None y = has_key 0 h rs.
Proof.
  intros h d Hr. destruct (reachable_well_formed ts ps rs Hr) as ((_ & _ & W) & _).
  assert (Hget : exists y, get_from_cache p (_lm self) d = (Ok y, d) /\
                           is_not_None y = has_key 0 h rs).
  { unfold d. rewrite get_on_tables. fold h.
    destruct (matching 0 h rs) as [|r l] eqn:Em.
    - exists None. split; [reflexivity|]. symmetry. now apply matching_nil_iff.
    - assert (Hin : In r (matching 0 h rs)) by (rewrite Em; now left).
      unfold matching in Hin. apply filter_In in Hin. destruct Hin as [Hin Hm].
      rewrite Forall_forall in W. unfold len. rewrite (W r Hin). cbn [Z.of_nat negb].
      eexists. split; [reflexivity|]. cbn. symmetry.
      apply has_key_true. exists r. split; [assumption | now apply where_eq_text]. }
  destruct Hget as (y & Hy & Hs). split.
  - unfold __contains__, bind. rewrite Hy. unfold ret. now rewrite Hs.
  - exists y. now split.
Qed.

(** X11. On a file the cache produces, recording a request that has no
    prediction stored and whose text no stored request uses, and deleting it
    again, gives back the three tables as they were; the deletion returns
    true. *)
Theorem delete_undoes_add `{Externals}
    (now : pystr) (x : LmPrediction) (self : SqlBackedCache) (ts ps rs : table) :
  let m := get_model_cache_key (_lm self) in
  let h := prompt_to_sample_hash_text (prompt x) m in
  let t := prompt_to_text_hash (prompt x) in
  reachable (Some (tables ts ps rs)) ->
  has_key 0 h rs = false ->
  has_key 0 t ps = false ->
  exists d,
    add now self x (healthy (Some (tables ts ps rs))) = (Ok tt, d) /\
    delete self (prompt x) d = (Ok true, healthy (Some (tables ts ps rs))).
Proof.
  intros m h t Hr Hh Ht.
  destruct (reachable_tables_consistent ts ps rs Hr) as [J P K].
  assert (Hp : has_key 1 h ps = false) by now rewrite J.
  assert (Hts : has_key 0 t ts = false).
  { destruct (has_key 0 t ts) eqn:E; [|reflexivity].
    apply has_key_true in E. destruct E as (r & Hin & Er).
    rewrite Forall_forall in K. destruct (K r Hin) as (t0 & E0 & Href).
    rewrite Er in E0. apply VText_inj in E0. subst t0. congruence. }
  eexists. split; [apply add_on_tables|].
  rewrite delete_on_tables_keys. fold m h t.
  rewrite (upsert_absent 0 t) by (reflexivity || assumption).
  rewrite (upsert_absent 1 h) by (reflexivity || assumption).
  rewrite !without_app, has_key_app.
  rewrite (without_absent 1 h ps Hp), (without_absent 0 h rs Hh).
  rewrite (without_hit 1 h (params_row (prompt x) m)) by reflexivity.
  rewrite (without_hit 0 h (prediction_row now x m)) by reflexivity.
  rewrite !app_nil_r, Ht, Hp, (without_absent 0 t ts Hts).
  rewrite (without_hit 0 t (text_row (prompt x))) by reflexivity.
  rewrite app_nil_r. cbn [orb].
  replace (has_key 1 h [params_row (prompt x) m]) with true; [reflexivity|].
  symmetry. apply has_key_true. exists (params_row (prompt x) m).
  split; [now left | reflexivity].
Qed.

Section ProducedOnDemo.
#[local] Existing Instance Demo.python.

Lemma two_predictions_reachable : reachable (cache_file Demo.two_predictions).
Proof.
  exact (reachable_call _
           (Call_add_prediction_to_cache Demo.noon Demo.time_prediction
              (lit "test-model"))
           (reachable_call None
              (Call_add_prediction_to_cache Demo.noon Demo.time_prediction
                 (lit "test-model"))
              reachable_fresh)).
Qed.

Lemma two_predictions_tables :
  cache_file Demo.two_predictions =
    Some (tables
            [text_row Demo.once_upon_a]
            [params_row Demo.once_upon_a (lit "test-model")]
            [prediction_row Demo.noon Demo.time_prediction (lit "test-model");
             prediction_row Demo.noon Demo.time_prediction (lit "test-model")]).
Proof. vm_compute. reflexivity. Qed.

Lemma one_row_per_key_witness :
  List.length (predictions_of (cache_file Demo.two_predictions)) = 2%nat /\
  forall k,
    (List.length (matching 1 k [params_row Demo.once_upon_a (lit "test-model")])
     <= 1)%nat.
Proof.
  pose proof two_predictions_reachable as Hr.
  rewrite two_predictions_tables in Hr.
  split; [now rewrite two_predictions_tables|].
  exact (proj1 (proj2 (one_row_per_key _ _ _ Hr))).
Defined.

Lemma contains_iff_stored_witness :
  __contains__ Demo.facade Demo.once_upon_a
    (healthy (Some (tables
       [text_row Demo.once_upon_a]
       [params_row Demo.once_upon_a (lit "test-model")]
       [prediction_row Demo.noon Demo.time_prediction (lit "test-model")])))
  = (Ok (has_key 0 (prompt_to_sample_hash_text Demo.once_upon_a (lit "test-model"))
           [prediction_row Demo.noon Demo.time_prediction (lit "test-model")]),
     healthy (Some (tables
       [text_row Demo.once_upon_a]
       [params_row Demo.once_upon_a (lit "test-model")]
       [prediction_row Demo.noon Demo.time_prediction (lit "test-model")]))).
Proof.
  refine (proj1 (contains_iff_stored Demo.facade Demo.once_upon_a _ _ _ _)).
  exact (reachable_call None
           (Call_add_prediction_to_cache Demo.noon Demo.time_prediction
              (lit "test-model"))
           reachable_fresh).
Defined.

Lemma delete_undoes_add_witness :
  exists d,
    add Demo.noon Demo.facade Demo.time_prediction (healthy (Some (tables [] [] [])))
      = (Ok tt, d) /\
    delete Demo.facade Demo.once_upon_a d
      = (Ok true, healthy (Some (tables [] [] []))).
Proof.
  apply (delete_undoes_add Demo.noon Demo.time_prediction Demo.facade [] [] []).
  - exact (reachable_call None Call_create_tables reachable_fresh).
  - reflexivity.
  - reflexivity.
Defined.

End ProducedOnDemo.

(** ** What the keys tell apart *)

Lemma app_same_length {A} (a a' b b' : list A) :
  List.length a = List.length a' -> a ++ b = a' ++ b' -> a = a' /\ b = b'.
Proof.
  revert a'. induction a as [|x a IH]; intros [|x' a'] Hl E;
    try discriminate Hl.
  - now split.
  - cbn in E. injection E as -> E. cbn in Hl. injection Hl as Hl.
    destruct (IH a' Hl E) as [-> ->]. now split.
Qed.

Lemma repeat_then_other {A} (c x x' : A) (n n' : nat) (l l' : list A) :
  x <> c -> x' <> c ->
  repeat c n ++ x :: l = repeat c n' ++ x' :: l' -> n = n'.
Proof.
  intros Hx Hx'. revert n'. induction n as [|n IH]; intros [|n'] E; cbn in E.
  - reflexivity.
  - injection E as E _. contradiction.
  - injection E as E _. symmetry in E. contradiction.
  - injection E as E. f_equal. now apply IH.
Qed.

Lemma rev_repeat_same {A} (c : A) (n : nat) : rev (repeat c n) = repeat c n.
Proof.
  induction n as [|n IH]; [reflexivity|].
  cbn. rewrite IH. clear IH. induction n as [|n IH]; [reflexivity|].
  cbn. now rewrite IH.
Qed.

Section KeysApart.
Context `{Externals}.

(** The base64 form of the digest: eleven characters and the padding "=". *)
Lemma b64_xxh64_padding s : b64_xxh64 s = firstn 11 (b64_xxh64 s) ++ lit "=".
Proof. reflexivity. Qed.

Lemma text_key_reversed (p : LmPrompt) :
  let text := get_text_as_string_default_form p in
  (List.length text <= 14)%nat ->
  rev (prompt_to_text_hash p) =
    repeat "_"%char (20 - (Nat.min 6 (List.length text) + List.length text))
      ++ "="%char :: rev (firstn 11 (b64_xxh64 text)) ++ text
      ++ rev (firstn (Nat.min 6 (List.length text)) text).
Proof.
  intros text Hl. rewrite prompt_to_text_hash_fragments. fold text.
  replace (Nat.min (20 - Nat.min 6 (List.length text)) (List.length text))
    with (List.length text) by lia.
  unfold lastn. rewrite Nat.sub_diag. cbn [skipn].
  rewrite (b64_xxh64_padding text).
  rewrite !rev_app_distr, rev_repeat_same, rev_involutive.
  cbn [lit list_ascii_of_string rev app].
  rewrite <- !app_assoc. cbn [app].
  do 2 f_equal. lia.
Qed.

(** X12. Two texts of at most 14 characters with the same text key are the
    same text, whatever the hash function: a short text is part of its
    key. *)
Theorem short_texts_never_collide (p q : LmPrompt) :
  shown_in_full (get_text_as_string_default_form p) = true ->
  shown_in_full (get_text_as_string_default_form q) = true ->
  prompt_to_text_hash p = prompt_to_text_hash q ->
  get_text_as_string_default_form p = get_text_as_string_default_form q.
Proof.
  unfold shown_in_full.
  set (a := get_text_as_string_default_form p).
  set (b := get_text_as_string_default_form q).
  intros Ha Hb E. apply Nat.leb_le in Ha, Hb.
  apply (f_equal (@rev ascii)) in E.
  rewrite (text_key_reversed p Ha), (text_key_reversed q Hb) in E.
  fold a b in E.
  assert (Hn : (20 - (Nat.min 6 (List.length a) + List.length a)
                = 20 - (Nat.min 6 (List.length b) + List.length b))%nat).
  { apply (repeat_then_other _ _ _ _ _ _ _) in E; [exact E | |]; discriminate. }
  assert (Hlen : List.length a = List.length b) by lia.
  rewrite Hn in E. apply app_inv_head in E.
  apply (f_equal (@tl ascii)) in E. cbn [tl] in E.
  apply app_same_length in E;
    [|now rewrite !length_rev, !length_firstn, !b64_xxh64_length].
  destruct E as [_ E].
  apply app_same_length in E; [tauto | exact Hlen].
Qed.

(** X13. Two texts of at least 20 characters with the same text key have
    the same first 6 characters, the same last 14 characters and the same
    base64 digest. *)
Theorem long_texts_with_one_key (p q : LmPrompt) :
  let a := get_text_as_string_default_form p in
  let b := get_text_as_string_default_form q in
  (20 <= List.length a)%nat ->
  (20 <= List.length b)%nat ->
  prompt_to_text_hash p = prompt_to_text_hash q ->
  firstn 6 a = firstn 6 b /\ lastn 14 a = lastn 14 b /\ b64_xxh64 a = b64_xxh64 b.
Proof.
  intros a b Ha Hb E.
  rewrite !prompt_to_text_hash_fragments in E. fold a b in E.
  replace (Nat.min 6 (List.length a)) with 6%nat in E by lia.
  replace (Nat.min 6 (List.length b)) with 6%nat in E by lia.
  replace (Nat.min (20 - 6) (List.length a)) with 14%nat in E by lia.
  replace (Nat.min (20 - 6) (List.length b)) with 14%nat in E by lia.
  apply app_same_length in E;
    [|rewrite !length_firstn; lia].
  destruct E as [E1 E].
  apply app_same_length in E;
    [|rewrite !length_rev, !length_lastn; lia].
  destruct E as [E2 E].
  apply app_same_length in E; [|now rewrite !b64_xxh64_length].
  destruct E as [E3 _].
  split; [exact E1|]. split; [|exact E3].
  rewrite <- (rev_involutive (lastn 14 a)), E2. apply rev_involutive.
Qed.

(** X14. Cutting the base64 digest of the sample parameters to 11
    characters removes its padding character only: two requests have the
    same segment exactly when the base64 forms of their digests are the
    same. *)
Theorem sample_segment_keeps_digest (p q : LmPrompt) (m m' : pystr) :
  b64_xxh64 (str_of_dict (prompt_to_only_sample_class_dict p m))
    = prompt_to_sample_params_hash p m ++ lit "=" /\
  (prompt_to_sample_params_hash p m = prompt_to_sample_params_hash q m' <->
   b64_xxh64 (str_of_dict (prompt_to_only_sample_class_dict p m))
   = b64_xxh64 (str_of_dict (prompt_to_only_sample_class_dict q m'))).
Proof.
  rewrite !prompt_to_sample_params_hash_eq.
  split; [apply b64_xxh64_padding|].
  split.
  - intros E. rewrite (b64_xxh64_padding (str_of_dict _)), E.
    symmetry. apply b64_xxh64_padding.
  - now intros ->.
Qed.

End KeysApart.

Section KeysApartOnDemo.
#[local] Existing Instance Demo.python.

Lemma short_texts_never_collide_witness :
  get_text_as_string_default_form Demo.once_upon_a
  = get_text_as_string_default_form Demo.once_upon_a_5.
Proof.
  apply (short_texts_never_collide Demo.once_upon_a Demo.once_upon_a_5);
    reflexivity.
Defined.

Lemma long_texts_with_one_key_witness :
  firstn 6 (lit "Here is a story. Once upon a")
  = firstn 6 (get_text_as_string_default_form
                (Demo.with_text "Here is a story. Once upon a")).
Proof.
  refine (proj1 (long_texts_with_one_key
                   (Demo.with_text "Here is a story. Once upon a")
                   (Demo.with_text "Here is a story. Once upon a") _ _ eq_refl));
    cbn; lia.
Defined.

End KeysApartOnDemo.

(** ** Requests that share a key *)

Section SharedKey.
Context `{Externals}.

Lemma sample_hash_of_equal_parts (p q : LmPrompt) (m : pystr) :
  get_text_as_string_default_form p = get_text_as_string_default_form q ->
  prompt_to_only_sample_class_dict p m = prompt_to_only_sample_class_dict q m ->
  prompt_to_sample_hash_text p m = prompt_to_sample_hash_text q m.
Proof.
  intros Ht Hd.
  unfold prompt_to_sample_hash_text, prompt_to_sample_params_hash,
    prompt_to_text_hash.
  now rewrite Ht, Hd.
Qed.

(** X15. A lookup is answered from the sample key alone: after a prediction
    was recorded for one request, the lookup of any request with the same
    text and the same dictionary of sample parameters, whatever its other
    fields ([logprobs], [num_completions], [cache], the content of the
    internals request), returns that prediction's completion text and
    metadata bytes, parsed for the request looked up. *)
Theorem lookup_by_sample_key_only
    (now : pystr) (x : LmPrediction) (lm : LmPredictor) (q : LmPrompt)
    (ts ps rs : table) :
  let m := get_model_cache_key lm in
  get_text_as_string_default_form (prompt x) = get_text_as_string_default_form q ->
  prompt_to_only_sample_class_dict (prompt x) m
    = prompt_to_only_sample_class_dict q m ->
  has_key 0 (prompt_to_sample_hash_text q m) rs = false ->
  exists d,
    add_prediction_to_cache now x m (healthy (Some (tables ts ps rs))) = (Ok tt, d) /\
    get_from_cache q lm d =
      (Ok (Some (parse_from_cache (find_prediction_class lm q)
                   (VText (completion_text x)) q
                   (VBlob (serialize_metad_for_cache x)))), d).
Proof.
  intros m Ht Hd Hnew.
  pose proof (sample_hash_of_equal_parts (prompt x) q m Ht Hd) as Hk.
  eexists. split; [apply add_on_tables|].
  rewrite get_on_tables. fold m.
  rewrite matching_app.
  apply matching_nil_iff in Hnew. rewrite Hnew.
  unfold matching. cbn [filter app].
  replace (where_eq 0 (VText (prompt_to_sample_hash_text q m))
             (prediction_row now x m)) with true.
  - reflexivity.
  - symmetry. apply where_eq_text. cbn. now rewrite Hk.
Qed.

End SharedKey.

Section SharedKeyOnDemo.
#[local] Existing Instance Demo.python.

Lemma lookup_by_sample_key_only_witness :
  exists d,
    add_prediction_to_cache Demo.noon Demo.time_prediction (lit "test-model")
      (healthy (Some (tables [] [] []))) = (Ok tt, d) /\
    get_from_cache Demo.once_upon_a_uncached Demo.test_model d =
      (Ok (Some (parse_from_cache Demo.plain_class (VText (lit " time"))
                   Demo.once_upon_a_uncached (VBlob [x01; x02]))), d).
Proof.
  apply (lookup_by_sample_key_only Demo.noon Demo.time_prediction Demo.test_model
           Demo.once_upon_a_uncached [] [] []); reflexivity.
Defined.

End SharedKeyOnDemo.

(** ** The facade from its construction *)

Section Facade.
Context `{Externals}.

(** X16. Constructing the facade while there is no file creates the three
    tables, so that a [delete] right after it does not raise: it returns
    false and leaves the empty tables. *)
Theorem delete_after_construction (lm : LmPredictor) (p : LmPrompt) :
  let d := healthy (Some (tables [] [] [])) in
  __init__ lm (healthy None) = (Ok {| _lm := lm |}, d) /\
  delete {| _lm := lm |} p d = (Ok false, d) /\
  get {| _lm := lm |} p d = (Ok None, d) /\
  __contains__ {| _lm := lm |} p d = (Ok false, d).
Proof. repeat split. Qed.

(** X17. [add_prediction_to_cache] only appends: the rows that were in the
    three tables stay where they are, unchanged; at most one row is added to
    CacheLmPromptText and to CacheLmPromptSampleParams, none when the key is
    already there, and exactly one to CacheLmPrediction. *)
Theorem add_only_appends
    (now : pystr) (x : LmPrediction) (m : pystr) (ts ps rs : table) :
  let t := prompt_to_text_hash (prompt x) in
  let h := prompt_to_sample_hash_text (prompt x) m in
  exists ts1 ps1,
    add_prediction_to_cache now x m (healthy (Some (tables ts ps rs)))
      = (Ok tt,
         healthy (Some (tables (ts ++ ts1) (ps ++ ps1)
                               (rs ++ [prediction_row now x m])))) /\
    ts1 = (if has_key 0 t ts then [] else [text_row (prompt x)]) /\
    ps1 = (if has_key 1 h ps then [] else [params_row (prompt x) m]).
Proof.
  intros t h. eexists. eexists. split; [|split; reflexivity].
  rewrite add_on_tables. unfold upsert.
  change (existsb (where_eq 0 (col 0 (text_row (prompt x)))) ts)
    with (has_key 0 t ts).
  change (existsb (where_eq 1 (col 1 (params_row (prompt x) m))) ps)
    with (has_key 1 h ps).
  destruct (has_key 0 t ts), (has_key 1 h ps); now rewrite ?app_nil_r.
Qed.

End Facade.
